(** * Faceted movie browser: the filter-state coordinator of [src/App.jsx]

    A shallow embedding of the [App] and [Dropdown] components.  The React
    state variables of [App] form the record [State]; an event handler is
    an action that reads the values captured by the render that created
    it (its closure), queues state writes and issues network requests.
    After a handler has run, React re-renders and runs every [useEffect]
    whose dependency list changed.  A network response is applied by the
    [.then] callback that the request registered.

    Conventions of the model:
    - ids, page numbers and scroll positions are integers ([Z]);
    - the query string of the movie request is kept as the ordered list
      of pairs appended to the [URLSearchParams] object, before
      percent-encoding;
    - a response given to [settle] is a rejection or a body
      [{ results, next }] of the endpoint that was asked; the promise chain
      with its two ways to reject and with parsed bodies that have no
      [results] is modelled by [arrive];
    - styling, the page header and the host bootstrap of [utils/twa.js]
      carry no state and are left out. *)

From Stdlib Require Import ZArith String Ascii List Bool Lia DecimalString.
Import ListNotations.
Open Scope string_scope.
Open Scope list_scope.
Open Scope Z_scope.

(** ** JavaScript primitives used by the components

    A string is a sequence of code units; a value of [ascii] stands for one
    code unit in the range U+0000..U+00FF. *)
Module JS.

(** [String(n)] and the implicit conversion of [URLSearchParams.append]
    and of template literals, for an integral number. *)
Definition toString (n : Z) : string := NilZero.string_of_int (Z.to_int n).

(** Truthiness of a value that is [null] or a number. *)
Definition truthy (v : option Z) : bool :=
  match v with
  | None => false
  | Some n => negb (n =? 0)%Z
  end.

(** Truthiness of a value that is [null] or a string ([!!data.next]). *)
Definition truthyStr (v : option string) : bool :=
  match v with
  | None => false
  | Some s => negb (s =? "")%string
  end.

(** White space removed by [String.prototype.trim]. *)
Definition isWhiteSpace (c : ascii) : bool :=
  let n := N_of_ascii c in
  ((9 <=? n) && (n <=? 13) || (n =? 32) || (n =? 160))%N.

Fixpoint trimStart (s : string) : string :=
  match s with
  | EmptyString => EmptyString
  | String c r => if isWhiteSpace c then trimStart r else s
  end.

Fixpoint trimEnd (s : string) : string :=
  match s with
  | EmptyString => EmptyString
  | String c r =>
      let r' := trimEnd r in
      if isWhiteSpace c && (r' =? "")%string then EmptyString else String c r'
  end.

Definition trim (s : string) : string := trimEnd (trimStart s).

Definition lowerChar (c : ascii) : ascii :=
  let n := N_of_ascii c in
  if ((65 <=? n) && (n <=? 90)
      || (192 <=? n) && (n <=? 222) && negb (n =? 215))%N
  then ascii_of_N (n + 32) else c.

Fixpoint toLowerCase (s : string) : string :=
  match s with
  | EmptyString => EmptyString
  | String c r => String (lowerChar c) (toLowerCase r)
  end.

(** [s.includes(sub)] *)
Fixpoint includes (s sub : string) : bool :=
  prefix sub s ||
  match s with
  | EmptyString => false
  | String _ r => includes r sub
  end.

End JS.

(** ** Data received from the catalog service *)

(** An entry of a dropdown: [{ id, name }]. *)
Record Opt := mkOpt { id : Z; name : string }.

(** A person as the service sends it; only [id] and [name_ru] are read. *)
Record Person := mkPerson { person_id : Z; name_ru : string }.

(** A movie as the service sends it; the coordinator only moves it around. *)
Record Movie := mkMovie {
  movie_id : Z;
  title_ru : string;
  poster : string;
  rating : string;
  release_year : Z;
  movie_genres : list Opt
}.

(** The JSON body [{ results: [...], next: URL|null }]. *)
Record Data (A : Type) := mkData { results : list A; next : option string }.
Arguments mkData {A}.
Arguments results {A}.
Arguments next {A}.

(** How a fetch ends: the promise chain rejects (the request could not
    complete) or the [.then] callback receives the parsed body of the
    endpoint that was asked. *)
Inductive Response :=
| Rejected
| Catalog (d : Data Opt)
| Persons (d : Data Person)
| Movies (d : Data Movie).

(** ** The state variables of [App] *)

#[projections(primitive)]
Record State := mkState {
  movies : list Movie;
  search : string;

  genres : list Opt;
  countries : list Opt;
  actors : list Opt;
  directors : list Opt;

  selectedGenre : option Z;
  selectedCountry : option Z;
  selectedYear : option Z;
  selectedActor : option Z;
  selectedDirector : option Z;

  actorSearch : string;
  directorSearch : string;

  page : Z;
  hasMore : bool;

  genrePage : Z;
  countryPage : Z;
  actorPage : Z;
  directorPage : Z;

  hasMoreGenres : bool;
  hasMoreCountries : bool;
  hasMoreActors : bool;
  hasMoreDirectors : bool
}.

(** The arguments of the [useState] calls. *)
Definition initialState : State :=
  mkState [] "" [] [] [] [] None None None None None "" "" 1 false
          1 1 1 1 true true true true.

(** The five [Dropdown] instances rendered by [App], and the [open] flag
    each of them keeps. *)
Inductive Slot := Genre | Country | Year | Actor | Director.

#[projections(primitive)]
Record Opens := mkOpens {
  genreOpen : bool;
  countryOpen : bool;
  yearOpen : bool;
  actorOpen : bool;
  directorOpen : bool
}.

Definition isOpen (o : Opens) (d : Slot) : bool :=
  match d with
  | Genre => genreOpen o
  | Country => countryOpen o
  | Year => yearOpen o
  | Actor => actorOpen o
  | Director => directorOpen o
  end.

(** Everything the page is rendered from. *)
#[projections(primitive)]
Record UI := mkUI { app : State; opens : Opens }.

(** ** Requests

    A request is the URL given to [fetch] and the [.then] callback waiting
    for the body.  The callbacks close over the arguments of the function
    that issued the request and over nothing else. *)

(** The state setters that are passed around as arguments. *)
Inductive ListSetter := SetGenres | SetCountries | SetActors | SetDirectors.
Inductive PageSetter := SetActorPage | SetDirectorPage.
Inductive MoreSetter := SetHasMoreActors | SetHasMoreDirectors.

Inductive Callback :=
| ThenData (endpoint : string) (setter : ListSetter) (page : Z) (append : bool)
| ThenPersons (setter : ListSetter) (setPageState : PageSetter)
              (setMoreState : MoreSetter) (page : Z) (append : bool)
| ThenMovies (p : Z) (append : bool).

(** A URL is either written out by a template literal or ends in the
    serialisation of a [URLSearchParams] object, kept as the ordered list
    of appended pairs. *)
Inductive Url :=
| Literal (u : string)
| WithParams (base : string) (params : list (string * string)).

Record Request := mkRequest { url : Url; callback : Callback }.

(** ** Actions

    A handler transforms the pending state and emits requests. *)
Definition Act := UI -> UI * list Request.

Definition skip : Act := fun u => (u, []).

Definition andThen (a b : Act) : Act :=
  fun u =>
    let (u1, r1) := a u in
    let (u2, r2) := b u1 in
    (u2, r1 ++ r2).

Notation "a ;; b" := (andThen a b) (at level 61, right associativity).

Definition fetch (u : Url) (k : Callback) : Act :=
  fun s => (s, [mkRequest u k]).

Definition update (f : State -> State) : Act :=
  fun u => (mkUI (f (app u)) (opens u), []).

(** ** State setters

    One per [useState] pair; the list setters take an updater function,
    as the code calls them with [(prev) => ...]. *)

Definition setMovies (f : list Movie -> list Movie) (s : State) : State :=
  let 'mkState m q g c a d sg sc sy sa sd ase dse p h gp cp ap dp hg hc ha hd := s in
  mkState (f m) q g c a d sg sc sy sa sd ase dse p h gp cp ap dp hg hc ha hd.
Definition setSearch (v : string) (s : State) : State :=
  let 'mkState m q g c a d sg sc sy sa sd ase dse p h gp cp ap dp hg hc ha hd := s in
  mkState m v g c a d sg sc sy sa sd ase dse p h gp cp ap dp hg hc ha hd.
Definition setGenres (f : list Opt -> list Opt) (s : State) : State :=
  let 'mkState m q g c a d sg sc sy sa sd ase dse p h gp cp ap dp hg hc ha hd := s in
  mkState m q (f g) c a d sg sc sy sa sd ase dse p h gp cp ap dp hg hc ha hd.
Definition setCountries (f : list Opt -> list Opt) (s : State) : State :=
  let 'mkState m q g c a d sg sc sy sa sd ase dse p h gp cp ap dp hg hc ha hd := s in
  mkState m q g (f c) a d sg sc sy sa sd ase dse p h gp cp ap dp hg hc ha hd.
Definition setActors (f : list Opt -> list Opt) (s : State) : State :=
  let 'mkState m q g c a d sg sc sy sa sd ase dse p h gp cp ap dp hg hc ha hd := s in
  mkState m q g c (f a) d sg sc sy sa sd ase dse p h gp cp ap dp hg hc ha hd.
Definition setDirectors (f : list Opt -> list Opt) (s : State) : State :=
  let 'mkState m q g c a d sg sc sy sa sd ase dse p h gp cp ap dp hg hc ha hd := s in
  mkState m q g c a (f d) sg sc sy sa sd ase dse p h gp cp ap dp hg hc ha hd.
Definition setSelectedGenre (v : option Z) (s : State) : State :=
  let 'mkState m q g c a d sg sc sy sa sd ase dse p h gp cp ap dp hg hc ha hd := s in
  mkState m q g c a d v sc sy sa sd ase dse p h gp cp ap dp hg hc ha hd.
Definition setSelectedCountry (v : option Z) (s : State) : State :=
  let 'mkState m q g c a d sg sc sy sa sd ase dse p h gp cp ap dp hg hc ha hd := s in
  mkState m q g c a d sg v sy sa sd ase dse p h gp cp ap dp hg hc ha hd.
Definition setSelectedYear (v : option Z) (s : State) : State :=
  let 'mkState m q g c a d sg sc sy sa sd ase dse p h gp cp ap dp hg hc ha hd := s in
  mkState m q g c a d sg sc v sa sd ase dse p h gp cp ap dp hg hc ha hd.
Definition setSelectedActor (v : option Z) (s : State) : State :=
  let 'mkState m q g c a d sg sc sy sa sd ase dse p h gp cp ap dp hg hc ha hd := s in
  mkState m q g c a d sg sc sy v sd ase dse p h gp cp ap dp hg hc ha hd.
Definition setSelectedDirector (v : option Z) (s : State) : State :=
  let 'mkState m q g c a d sg sc sy sa sd ase dse p h gp cp ap dp hg hc ha hd := s in
  mkState m q g c a d sg sc sy sa v ase dse p h gp cp ap dp hg hc ha hd.
Definition setActorSearch (v : string) (s : State) : State :=
  let 'mkState m q g c a d sg sc sy sa sd ase dse p h gp cp ap dp hg hc ha hd := s in
  mkState m q g c a d sg sc sy sa sd v dse p h gp cp ap dp hg hc ha hd.
Definition setDirectorSearch (v : string) (s : State) : State :=
  let 'mkState m q g c a d sg sc sy sa sd ase dse p h gp cp ap dp hg hc ha hd := s in
  mkState m q g c a d sg sc sy sa sd ase v p h gp cp ap dp hg hc ha hd.
Definition setPage (v : Z) (s : State) : State :=
  let 'mkState m q g c a d sg sc sy sa sd ase dse p h gp cp ap dp hg hc ha hd := s in
  mkState m q g c a d sg sc sy sa sd ase dse v h gp cp ap dp hg hc ha hd.
Definition setHasMore (v : bool) (s : State) : State :=
  let 'mkState m q g c a d sg sc sy sa sd ase dse p h gp cp ap dp hg hc ha hd := s in
  mkState m q g c a d sg sc sy sa sd ase dse p v gp cp ap dp hg hc ha hd.
Definition setGenrePage (v : Z) (s : State) : State :=
  let 'mkState m q g c a d sg sc sy sa sd ase dse p h gp cp ap dp hg hc ha hd := s in
  mkState m q g c a d sg sc sy sa sd ase dse p h v cp ap dp hg hc ha hd.
Definition setCountryPage (v : Z) (s : State) : State :=
  let 'mkState m q g c a d sg sc sy sa sd ase dse p h gp cp ap dp hg hc ha hd := s in
  mkState m q g c a d sg sc sy sa sd ase dse p h gp v ap dp hg hc ha hd.
Definition setActorPage (v : Z) (s : State) : State :=
  let 'mkState m q g c a d sg sc sy sa sd ase dse p h gp cp ap dp hg hc ha hd := s in
  mkState m q g c a d sg sc sy sa sd ase dse p h gp cp v dp hg hc ha hd.
Definition setDirectorPage (v : Z) (s : State) : State :=
  let 'mkState m q g c a d sg sc sy sa sd ase dse p h gp cp ap dp hg hc ha hd := s in
  mkState m q g c a d sg sc sy sa sd ase dse p h gp cp ap v hg hc ha hd.
Definition setHasMoreGenres (v : bool) (s : State) : State :=
  let 'mkState m q g c a d sg sc sy sa sd ase dse p h gp cp ap dp hg hc ha hd := s in
  mkState m q g c a d sg sc sy sa sd ase dse p h gp cp ap dp v hc ha hd.
Definition setHasMoreCountries (v : bool) (s : State) : State :=
  let 'mkState m q g c a d sg sc sy sa sd ase dse p h gp cp ap dp hg hc ha hd := s in
  mkState m q g c a d sg sc sy sa sd ase dse p h gp cp ap dp hg v ha hd.
Definition setHasMoreActors (v : bool) (s : State) : State :=
  let 'mkState m q g c a d sg sc sy sa sd ase dse p h gp cp ap dp hg hc ha hd := s in
  mkState m q g c a d sg sc sy sa sd ase dse p h gp cp ap dp hg hc v hd.
Definition setHasMoreDirectors (v : bool) (s : State) : State :=
  let 'mkState m q g c a d sg sc sy sa sd ase dse p h gp cp ap dp hg hc ha hd := s in
  mkState m q g c a d sg sc sy sa sd ase dse p h gp cp ap dp hg hc ha v.

Definition setOpen (d : Slot) (v : bool) : Act :=
  fun u =>
    let 'mkOpens g c y a r := opens u in
    let o :=
      match d with
      | Genre => mkOpens v c y a r
      | Country => mkOpens g v y a r
      | Year => mkOpens g c v a r
      | Actor => mkOpens g c y v r
      | Director => mkOpens g c y a v
      end in
    (mkUI (app u) o, []).

Definition callList (k : ListSetter) : (list Opt -> list Opt) -> State -> State :=
  match k with
  | SetGenres => setGenres
  | SetCountries => setCountries
  | SetActors => setActors
  | SetDirectors => setDirectors
  end.

Definition callPage (k : PageSetter) : Z -> State -> State :=
  match k with
  | SetActorPage => setActorPage
  | SetDirectorPage => setDirectorPage
  end.

Definition callMore (k : MoreSetter) : bool -> State -> State :=
  match k with
  | SetHasMoreActors => setHasMoreActors
  | SetHasMoreDirectors => setHasMoreDirectors
  end.

(** ** The fetch functions of [App] *)

Definition API : string := "http://192.168.1.37:8000/api".

(** The default [mapFn] of [fetchData]. *)
Definition mapFn (i : Opt) : Opt := mkOpt (id i) (name i).

Definition mapPerson (p : Person) : Opt := mkOpt (person_id p) (name_ru p).

Definition fetchData (endpoint : string) (setter : ListSetter)
    (page : Z) (append : bool) : Act :=
  fetch (Literal (API ++ "/" ++ endpoint ++ "?page=" ++ JS.toString page)%string)
        (ThenData endpoint setter page append).

(** The body of the last [.then] of [fetchData]. *)
Definition fetchData_then (endpoint : string) (setter : ListSetter)
    (page : Z) (append : bool) (data : Data Opt) (s : State) : State :=
  let s :=
    callList setter
      (fun prev => if append then prev ++ map mapFn (results data)
                   else map mapFn (results data)) s in
  if JS.includes endpoint "genre" then
    setGenrePage page (setHasMoreGenres (JS.truthyStr (next data)) s)
  else if JS.includes endpoint "country" then
    setCountryPage page (setHasMoreCountries (JS.truthyStr (next data)) s)
  else s.

Definition fetchPersons (type search : string) (page : Z) (append : bool)
    (setter : ListSetter) (setPageState : PageSetter)
    (setMoreState : MoreSetter) : Act :=
  if Z.of_nat (String.length search) <? 3 then skip
  else
    let url := (API ++ "/person/?search=" ++ search)%string in
    let url := if 1 <? page
               then (url ++ "&page=" ++ JS.toString page)%string else url in
    fetch (Literal url) (ThenPersons setter setPageState setMoreState page append).

Definition fetchPersons_then (setter : ListSetter) (setPageState : PageSetter)
    (setMoreState : MoreSetter) (page : Z) (append : bool)
    (data : Data Person) (s : State) : State :=
  let s :=
    callList setter
      (fun prev => if append then prev ++ map mapPerson (results data)
                   else map mapPerson (results data)) s in
  let s := callMore setMoreState (JS.truthyStr (next data)) s in
  callPage setPageState page s.

(** [params.append(key, value)] under [if (test)]. *)
Definition appendIf (test : bool) (key value : string)
    (params : list (string * string)) : list (string * string) :=
  if test then params ++ [(key, value)] else params.

Definition selectionText (v : option Z) : string :=
  match v with
  | Some n => JS.toString n
  | None => "null"
  end.

(** The [URLSearchParams] object built by [fetchMovies], read from the
    state values [c] captured by the render that defined the function. *)
Definition fetchMovies_params (c : State) (p : Z) : list (string * string) :=
  let params := [] in
  let params := appendIf (negb (JS.trim (search c) =? "")%string)
                         "search" (JS.trim (search c)) params in
  let params := appendIf (JS.truthy (selectedGenre c))
                         "genres" (selectionText (selectedGenre c)) params in
  let params := appendIf (JS.truthy (selectedCountry c))
                         "countries" (selectionText (selectedCountry c)) params in
  let params := appendIf (JS.truthy (selectedYear c))
                         "release_year" (selectionText (selectedYear c)) params in
  let params := appendIf (JS.truthy (selectedActor c))
                         "cast" (selectionText (selectedActor c)) params in
  let params := appendIf (JS.truthy (selectedDirector c))
                         "directors" (selectionText (selectedDirector c)) params in
  params ++ [("page", JS.toString p)].

Definition fetchMovies (c : State) (p : Z) (append : bool) : Act :=
  fetch (WithParams (API ++ "/movie/?")%string (fetchMovies_params c p))
        (ThenMovies p append).

Definition fetchMovies_then (p : Z) (append : bool)
    (data : Data Movie) (s : State) : State :=
  let s := setMovies (fun prev => if append then prev ++ results data
                                  else results data) s in
  let s := setHasMore (JS.truthyStr (next data)) s in
  setPage p s.

(** [reset], defined by the render whose state values are [c]: the state
    writes are queued, and the call of [fetchMovies] at its end is the
    [fetchMovies] of that same render. *)
Definition reset (c : State) : Act :=
  update (setSearch "") ;;
  update (setSelectedGenre None) ;;
  update (setSelectedCountry None) ;;
  update (setSelectedYear None) ;;
  update (setSelectedActor None) ;;
  update (setSelectedDirector None) ;;
  update (setActorSearch "") ;;
  update (setDirectorSearch "") ;;
  fetchMovies c 1 false.

(** ** The effects of [App]

    [useEffect(f, deps)] runs [f] after the first render, and after a later
    render when a dependency differs from its value at the previous one. *)

Definition optZ_eqb (a b : option Z) : bool :=
  match a, b with
  | Some x, Some y => x =? y
  | None, None => true
  | _, _ => false
  end.

Definition mountEffect : Act :=
  fetchData "genre" SetGenres 1 false ;;
  fetchData "country" SetCountries 1 false.

Definition actorSearchEffect (c : State) : Act :=
  fetchPersons "actor" (actorSearch c) 1 false
               SetActors SetActorPage SetHasMoreActors.

Definition directorSearchEffect (c : State) : Act :=
  fetchPersons "director" (directorSearch c) 1 false
               SetDirectors SetDirectorPage SetHasMoreDirectors.

Definition moviesEffect (c : State) : Act := fetchMovies c 1 false.

(** Whether the dependency list of the movie effect is the same in two
    renders. *)
Definition sameSelections (c0 c : State) : bool :=
  (search c0 =? search c)%string
  && optZ_eqb (selectedGenre c0) (selectedGenre c)
  && optZ_eqb (selectedCountry c0) (selectedCountry c)
  && optZ_eqb (selectedYear c0) (selectedYear c)
  && optZ_eqb (selectedActor c0) (selectedActor c)
  && optZ_eqb (selectedDirector c0) (selectedDirector c).

(** The effects run after the first render. *)
Definition effectsOnMount (c : State) : Act :=
  mountEffect ;;
  actorSearchEffect c ;;
  directorSearchEffect c ;;
  moviesEffect c.

(** The effects run after a render with state [c] that follows a render
    with state [c0]. *)
Definition effectsOnUpdate (c0 c : State) : Act :=
  (if (actorSearch c0 =? actorSearch c)%string
   then skip else actorSearchEffect c) ;;
  (if (directorSearch c0 =? directorSearch c)%string
   then skip else directorSearchEffect c) ;;
  (if sameSelections c0 c then skip else moviesEffect c).

(** ** The [Dropdown] component *)
Module Dropdown.

(** The props of one instance; absent callbacks are [None]. *)
Record Props := mkProps {
  options : list Opt;
  selected : option Z;
  onSelect : Z -> Act;
  isLazy : bool;
  onSearch : option (string -> Act);
  searchTerm : string;
  hasMore : bool;
  loadMore : option Act
}.

(** [onSearch?.(v)] *)
Definition callSearch (pr : Props) (v : string) : Act :=
  match onSearch pr with
  | Some f => f v
  | None => skip
  end.

(** [loadMore?.()] *)
Definition callLoadMore (pr : Props) : Act :=
  match loadMore pr with
  | Some f => f
  | None => skip
  end.

(** The [mousedown] listener on the document; [contains] tells whether
    the element of this instance contains the event target. *)
Definition closeOnOutsideClick (d : Slot) (pr : Props) (contains : bool) : Act :=
  if negb contains then setOpen d false ;; callSearch pr "" else skip.

Definition filtered (pr : Props) : list Opt :=
  filter (fun opt => JS.includes (JS.toLowerCase (name opt))
                                 (JS.toLowerCase (searchTerm pr)))
         (options pr).

(** [onClick] of the button. *)
Definition toggle (d : Slot) (open : bool) : Act := setOpen d (negb open).

(** [onChange] of the search input. *)
Definition onChange (pr : Props) (value : string) : Act := callSearch pr value.

(** [onScroll] of the list. *)
Definition onScroll (pr : Props) (scrollTop scrollHeight clientHeight : Z) : Act :=
  if (scrollHeight - scrollTop <=? clientHeight + 5) && hasMore pr
  then callLoadMore pr else skip.

(** [onClick] of the entry of [opt]. *)
Definition optionClick (d : Slot) (pr : Props) (opt : Opt) : Act :=
  onSelect pr (id opt) ;; setOpen d false ;; callSearch pr "".

End Dropdown.

(** ** What [App] renders *)

Definition years : list Opt :=
  rev (map (fun i => let year := 1990 + Z.of_nat i in
                     mkOpt year (JS.toString year))
           (seq 0 (Z.to_nat (2025 - 1990 + 1)))).

(** The props [App] gives to each [Dropdown] in a render with state [c]. *)
Definition dropdown (c : State) (d : Slot) : Dropdown.Props :=
  match d with
  | Genre =>
      Dropdown.mkProps (genres c) (selectedGenre c)
        (fun v => update (setSelectedGenre (Some v)))
        false None "" (hasMoreGenres c)
        (Some (fetchData "genre" SetGenres (genrePage c + 1) true))
  | Country =>
      Dropdown.mkProps (countries c) (selectedCountry c)
        (fun v => update (setSelectedCountry (Some v)))
        false None "" (hasMoreCountries c)
        (Some (fetchData "country" SetCountries (countryPage c + 1) true))
  | Year =>
      Dropdown.mkProps years (selectedYear c)
        (fun v => update (setSelectedYear (Some v)))
        false None "" false None
  | Actor =>
      Dropdown.mkProps (actors c) (selectedActor c)
        (fun v => update (setSelectedActor (Some v)))
        true (Some (fun v => update (setActorSearch v))) (actorSearch c)
        (hasMoreActors c)
        (Some (fetchPersons "actor" (actorSearch c) (actorPage c + 1) true
                            SetActors SetActorPage SetHasMoreActors))
  | Director =>
      Dropdown.mkProps (directors c) (selectedDirector c)
        (fun v => update (setSelectedDirector (Some v)))
        true (Some (fun v => update (setDirectorSearch v))) (directorSearch c)
        (hasMoreDirectors c)
        (Some (fetchPersons "director" (directorSearch c) (directorPage c + 1) true
                            SetDirectors SetDirectorPage SetHasMoreDirectors))
  end.

Definition slots : list Slot := [Genre; Country; Year; Actor; Director].

(** The document [mousedown] event reaches the listener of every instance;
    [target] is the instance whose element contains the event target, if
    any.  The listeners were registered by the first render; the only prop
    they use is [onSearch], a state setter, the same in every render. *)
Definition Slot_eqb (a b : Slot) : bool :=
  match a, b with
  | Genre, Genre | Country, Country | Year, Year
  | Actor, Actor | Director, Director => true
  | _, _ => false
  end.

Definition containsTarget (d : Slot) (target : option Slot) : bool :=
  match target with
  | Some t => Slot_eqb d t
  | None => false
  end.

Definition mousedown (c : State) (target : option Slot) : Act :=
  fold_right
    (fun d rest =>
       Dropdown.closeOnOutsideClick d (dropdown c d) (containsTarget d target) ;; rest)
    skip slots.

(** ** Events

    What the user and the network can do.  [handler u e] is the handler
    that the view rendered from [u] attaches to the element of event [e],
    or [None] when that view has no such element. *)
Inductive Event :=
| TitleInput (value : string)
| ButtonClick (d : Slot)
| SearchInput (d : Slot) (value : string)
| Scroll (d : Slot) (scrollTop scrollHeight clientHeight : Z)
| OptionClick (d : Slot) (opt : Opt)
| MouseDown (target : option Slot)
| ResetClick
| LoadMoreClick.

Definition Opt_eqb (a b : Opt) : bool :=
  (id a =? id b) && (name a =? name b)%string.

Definition handler (u : UI) (e : Event) : option Act :=
  let c := app u in
  match e with
  | TitleInput value => Some (update (setSearch value))
  | ButtonClick d => Some (Dropdown.toggle d (isOpen (opens u) d))
  | SearchInput d value =>
      if isOpen (opens u) d && Dropdown.isLazy (dropdown c d)
      then Some (Dropdown.onChange (dropdown c d) value) else None
  | Scroll d scrollTop scrollHeight clientHeight =>
      if isOpen (opens u) d
      then Some (Dropdown.onScroll (dropdown c d) scrollTop scrollHeight clientHeight)
      else None
  | OptionClick d opt =>
      if isOpen (opens u) d
         && existsb (Opt_eqb opt) (Dropdown.filtered (dropdown c d))
      then Some (Dropdown.optionClick d (dropdown c d) opt) else None
  | MouseDown target => Some (mousedown c target)
  | ResetClick => Some (reset c)
  | LoadMoreClick =>
      if hasMore c then Some (fetchMovies c (page c + 1) true) else None
  end.

(** ** The running page: what is rendered and the requests in flight *)
Record World := mkWorld { ui : UI; inflight : list Request }.

(** Run a handler on the view [u], re-render, run the effects. *)
Definition react (h : Act) : Act :=
  fun u =>
    let (u1, r1) := h u in
    let (u2, r2) := effectsOnUpdate (app u) (app u1) u1 in
    (u2, r1 ++ r2).

Definition dispatch (h : Act) (w : World) : World :=
  let (u', issued) := react h (ui w) in
  mkWorld u' (inflight w ++ issued).

(** The page after the first render and its effects. *)
Definition mount : World :=
  let u := mkUI initialState (mkOpens false false false false false) in
  let (u1, r1) := effectsOnMount initialState u in
  mkWorld u1 r1.

Definition fire (e : Event) (w : World) : option World :=
  match handler (ui w) e with
  | Some h => Some (dispatch h w)
  | None => None
  end.

(** What the callback of a request does with a response; [None] when the
    body is not of the endpoint's shape.  A rejected promise runs no
    callback. *)
Definition onResponse (k : Callback) (r : Response) : option (State -> State) :=
  match r, k with
  | Rejected, _ => Some (fun s => s)
  | Catalog data, ThenData endpoint setter page append =>
      Some (fetchData_then endpoint setter page append data)
  | Persons data, ThenPersons setter setPageState setMoreState page append =>
      Some (fetchPersons_then setter setPageState setMoreState page append data)
  | Movies data, ThenMovies p append =>
      Some (fetchMovies_then p append data)
  | _, _ => None
  end.

Definition without {A} (i : nat) (l : list A) : list A :=
  firstn i l ++ skipn (S i) l.

(** The [i]-th request in flight completes with response [r]. *)
Definition settle (i : nat) (r : Response) (w : World) : option World :=
  match nth_error (inflight w) i with
  | Some q =>
      match onResponse (callback q) r with
      | Some f => Some (dispatch (update f) (mkWorld (ui w) (without i (inflight w))))
      | None => None
      end
  | None => None
  end.

(** A step of the page: a user event or a completion. *)
Inductive Step :=
| User (e : Event)
| Network (i : nat) (r : Response).

Definition step (x : Step) (w : World) : option World :=
  match x with
  | User e => fire e w
  | Network i r => settle i r w
  end.

Fixpoint run (xs : list Step) (w : World) : option World :=
  match xs with
  | [] => Some w
  | x :: rest =>
      match step x w with
      | Some w' => run rest w'
      | None => None
      end
  end.

(** ** The selection writes of the registry

    [select(facet, id | null)] and [setTitleSearch(text)] are calls of the
    state setters, followed by the re-render. *)
Inductive Write :=
| Select (d : Slot) (v : option Z)
| SetTitleSearch (text : string).

Definition writeState (x : Write) : State -> State :=
  match x with
  | Select Genre v => setSelectedGenre v
  | Select Country v => setSelectedCountry v
  | Select Year v => setSelectedYear v
  | Select Actor v => setSelectedActor v
  | Select Director v => setSelectedDirector v
  | SetTitleSearch text => setSearch text
  end.

Definition write (x : Write) (w : World) : World :=
  dispatch (update (writeState x)) w.

Definition writes (xs : list Write) (w : World) : World :=
  fold_left (fun w x => write x w) xs w.

(** The value a write sequence leaves in a facet's selection, and in the
    title search, read off the sequence alone. *)
Fixpoint lastSelect (d : Slot) (xs : list Write) (start : option Z) : option Z :=
  match xs with
  | [] => start
  | Select d' v :: rest =>
      lastSelect d rest (if Slot_eqb d d' then v else start)
  | SetTitleSearch _ :: rest => lastSelect d rest start
  end.

Fixpoint lastTitle (xs : list Write) (start : string) : string :=
  match xs with
  | [] => start
  | Select _ _ :: rest => lastTitle rest start
  | SetTitleSearch text :: rest => lastTitle rest text
  end.

Definition selectedOf (c : State) (d : Slot) : option Z :=
  match d with
  | Genre => selectedGenre c
  | Country => selectedCountry c
  | Year => selectedYear c
  | Actor => selectedActor c
  | Director => selectedDirector c
  end.

(** The filter key of each facet in the movie query. *)
Definition filterKey (d : Slot) : string :=
  match d with
  | Genre => "genres"
  | Country => "countries"
  | Year => "release_year"
  | Actor => "cast"
  | Director => "directors"
  end.

(** Classification of requests by the source that will apply them. *)
Definition isMovieRequest (q : Request) : bool :=
  match callback q with
  | ThenMovies _ _ => true
  | _ => false
  end.

(** The request a render with state [c] issues for page [p] of the
    movie list. *)
Definition movieRequest (c : State) (p : Z) (append : bool) : Request :=
  mkRequest (WithParams (API ++ "/movie/?")%string (fetchMovies_params c p))
            (ThenMovies p append).

(** The requests the effects issue after a render. *)
Definition effectRequests (c0 c : State) (u : UI) : list Request :=
  snd (effectsOnUpdate c0 c u).

(** The page is rendered from [UI] alone: an outcome is shown to the user
    only if it changes the view. *)
Definition surfaced (before after : UI) : Prop := before <> after.

(** The requests in flight that were issued after the first [n]. *)
Definition issuedSince (n : nat) (w : World) : list Request :=
  skipn n (inflight w).

(** The list a list setter writes. *)
Definition listOf (k : ListSetter) (c : State) : list Opt :=
  match k with
  | SetGenres => genres c
  | SetCountries => countries c
  | SetActors => actors c
  | SetDirectors => directors c
  end.

(** A write that selects the id [0]. *)
Definition selectsZero (x : Write) : bool :=
  match x with
  | Select _ (Some n) => n =? 0
  | _ => false
  end.

(** The page reached by a session that starts at the first render; a step
    that cannot happen ends the session where it is. *)
Fixpoint sessionFrom (w : World) (xs : list Step) : World :=
  match xs with
  | [] => w
  | x :: rest =>
      match step x w with
      | Some w' => sessionFrom w' rest
      | None => w
      end
  end.

Definition session (xs : list Step) : World := sessionFrom mount xs.

(** The requests the load-more handlers issue. *)
Definition catalogRequest (endpoint : string) (setter : ListSetter) (p : Z) : Request :=
  mkRequest (Literal (API ++ "/" ++ endpoint ++ "?page=" ++ JS.toString p)%string)
            (ThenData endpoint setter p true).

Definition personRequest (term : string) (p : Z) (append : bool)
    (setter : ListSetter) (setPageState : PageSetter)
    (setMoreState : MoreSetter) : Request :=
  mkRequest
    (Literal (if 1 <? p
              then (API ++ "/person/?search=" ++ term ++ "&page=" ++ JS.toString p)%string
              else (API ++ "/person/?search=" ++ term)%string))
    (ThenPersons setter setPageState setMoreState p append).

(** What the load-more handler of each dropdown issues when it runs. *)
Definition scrollRequests (c : State) (d : Slot) : list Request :=
  match d with
  | Genre => [catalogRequest "genre" SetGenres (genrePage c + 1)]
  | Country => [catalogRequest "country" SetCountries (countryPage c + 1)]
  | Year => []
  | Actor =>
      if (String.length (actorSearch c) <? 3)%nat then []
      else [personRequest (actorSearch c) (actorPage c + 1) true
                          SetActors SetActorPage SetHasMoreActors]
  | Director =>
      if (String.length (directorSearch c) <? 3)%nat then []
      else [personRequest (directorSearch c) (directorPage c + 1) true
                          SetDirectors SetDirectorPage SetHasMoreDirectors]
  end.

(** ** The button of a dropdown *)

(** [options.find((o) => o.id === selected)] *)
Definition selectedOption (pr : Dropdown.Props) : option Opt :=
  match Dropdown.selected pr with
  | Some v => find (fun o => id o =? v) (Dropdown.options pr)
  | None => None
  end.

(** [selectedOption?.name || placeholder] *)
Definition buttonLabel (pr : Dropdown.Props) (placeholder : string) : string :=
  match selectedOption pr with
  | Some o => if (name o =? "")%string then placeholder else name o
  | None => placeholder
  end.

(** ** Sessions and what they keep *)

(** A page reached from the first render by user events and completions. *)
Definition reachable (w : World) : Prop := exists xs, run xs mount = Some w.

(** The state a user event can write: the selections and the search
    strings. *)
Definition registry (c : State) :=
  (search c, selectedGenre c, selectedCountry c, selectedYear c,
   selectedActor c, selectedDirector c, actorSearch c, directorSearch c).

(** The state a completion can write: the lists with their page numbers
    and continuation flags. *)
Definition loaded (c : State) :=
  ((movies c, page c, hasMore c),
   (genres c, genrePage c, hasMoreGenres c),
   (countries c, countryPage c, hasMoreCountries c),
   (actors c, actorPage c, hasMoreActors c),
   (directors c, directorPage c, hasMoreDirectors c)).

(** The list a request will write when it completes. *)
Inductive Source := MovieList | FacetList (d : Slot).

Definition owner (k : Callback) : Source :=
  match k with
  | ThenMovies _ _ => MovieList
  | ThenData _ SetGenres _ _ | ThenPersons SetGenres _ _ _ _ => FacetList Genre
  | ThenData _ SetCountries _ _ | ThenPersons SetCountries _ _ _ _ => FacetList Country
  | ThenData _ SetActors _ _ | ThenPersons SetActors _ _ _ _ => FacetList Actor
  | ThenData _ SetDirectors _ _ | ThenPersons SetDirectors _ _ _ _ => FacetList Director
  end.

(** The variables of one source are the same in two states. *)
Definition untouched (src : Source) (c c' : State) : Prop :=
  match src with
  | MovieList =>
      movies c' = movies c /\ page c' = page c /\ hasMore c' = hasMore c
  | FacetList Genre =>
      genres c' = genres c /\ genrePage c' = genrePage c
      /\ hasMoreGenres c' = hasMoreGenres c
  | FacetList Country =>
      countries c' = countries c /\ countryPage c' = countryPage c
      /\ hasMoreCountries c' = hasMoreCountries c
  | FacetList Year => True
  | FacetList Actor =>
      actors c' = actors c /\ actorPage c' = actorPage c
      /\ hasMoreActors c' = hasMoreActors c
  | FacetList Director =>
      directors c' = directors c /\ directorPage c' = directorPage c
      /\ hasMoreDirectors c' = hasMoreDirectors c
  end.

(** The callbacks the code builds: the bookkeeping that [fetchData] picks
    by the name of the endpoint, and the three setters that [fetchPersons]
    receives, belong to the list that is written. *)
Definition wellPaired (k : Callback) : bool :=
  match k with
  | ThenData e SetGenres _ _ => (e =? "genre")%string
  | ThenData e SetCountries _ _ => (e =? "country")%string
  | ThenData _ _ _ _ => false
  | ThenPersons SetActors SetActorPage SetHasMoreActors _ _ => true
  | ThenPersons SetDirectors SetDirectorPage SetHasMoreDirectors _ _ => true
  | ThenPersons _ _ _ _ _ => false
  | ThenMovies _ _ => true
  end.

Definition pageAsked (k : Callback) : Z :=
  match k with
  | ThenData _ _ p _ | ThenPersons _ _ _ p _ | ThenMovies p _ => p
  end.

(** What every session keeps: page numbers start at 1, the requests in
    flight are well paired and ask a page from 1 on, and a selected year
    is one of the years offered. *)
Definition pagesFromOne (c : State) : Prop :=
  1 <= page c /\ 1 <= genrePage c /\ 1 <= countryPage c
  /\ 1 <= actorPage c /\ 1 <= directorPage c.

Definition soundRequest (q : Request) : Prop :=
  wellPaired (callback q) = true /\ 1 <= pageAsked (callback q).

Definition yearOffered (v : option Z) : Prop :=
  match v with
  | Some y => 1990 <= y <= 2025
  | None => True
  end.

Definition sound (w : World) : Prop :=
  pagesFromOne (app (ui w))
  /\ Forall soundRequest (inflight w)
  /\ yearOffered (selectedYear (app (ui w))).

(** ** The promise chain of a fetch

    [fetch(url).then((res) => res.json()).then(callback)].  [fetch]
    rejects when the request cannot complete and resolves for every HTTP
    status; [res.ok] and [res.status] are never read.  [res.json()]
    rejects when the body is not JSON.  Otherwise the callback receives
    the parsed body, whatever the status. *)

(** A parsed body: a page of the endpoint, or an object without
    [results], as a service sends with an error status. *)
Inductive Json :=
| CatalogPage (d : Data Opt)
| PersonsPage (d : Data Person)
| MoviesPage (d : Data Movie)
| NoResults (next : option string).

Inductive Reply :=
| FetchRejects
| JsonRejects (status : Z)
| Parsed (status : Z) (body : Json).

(** What the list updater of a callback does when [data.results] is
    [undefined]: [data.results.map(...)] and [...data.results] throw a
    [TypeError]; the updater of a movie fetch that does not append returns
    [data.results], that is [undefined]. *)
Inductive Updated := Throws | BecomesUndefined.

Definition updaterWithoutResults (k : Callback) : Updated :=
  match k with
  | ThenData _ _ _ _ => Throws
  | ThenPersons _ _ _ _ _ => Throws
  | ThenMovies _ true => Throws
  | ThenMovies _ false => BecomesUndefined
  end.

(** What is on the screen: the page, or nothing once a render has thrown,
    since no error boundary is rendered. *)
Inductive Screen := Shown (w : World) | Unmounted.

(** The render after a callback that received no [results]: it runs the
    queued updater, which throws; or [movies] is [undefined] and [App]
    throws at [movies.length]. *)
Definition withoutResults (k : Callback) : Screen :=
  match updaterWithoutResults k with
  | Throws => Unmounted
  | BecomesUndefined => Unmounted
  end.

(** The [i]-th request in flight gets its reply. *)
Definition arrive (i : nat) (reply : Reply) (w : World) : option Screen :=
  match reply with
  | FetchRejects | JsonRejects _ => option_map Shown (settle i Rejected w)
  | Parsed _ (CatalogPage d) => option_map Shown (settle i (Catalog d) w)
  | Parsed _ (PersonsPage d) => option_map Shown (settle i (Persons d) w)
  | Parsed _ (MoviesPage d) => option_map Shown (settle i (Movies d) w)
  | Parsed _ (NoResults _) =>
      match nth_error (inflight w) i with
      | Some q => Some (withoutResults (callback q))
      | None => None
      end
  end.

(** * Properties *)

(** ** Actions, effects and the render cycle *)

Lemma andThen_run (a b : Act) (u : UI) :
  (a ;; b) u = (fst (b (fst (a u))), snd (a u) ++ snd (b (fst (a u)))).
Proof.
  unfold andThen. destruct (a u) as [u1 r1]. simpl.
  destruct (b u1) as [u2 r2]. reflexivity.
Qed.

Lemma fetchPersons_fst type term p append k kp km u :
  fst (fetchPersons type term p append k kp km u) = u.
Proof.
  unfold fetchPersons. destruct (Z.of_nat (String.length term) <? 3); reflexivity.
Qed.

Lemma fetchPersons_short type term p append k kp km u :
  (String.length term < 3)%nat ->
  fetchPersons type term p append k kp km u = (u, []).
Proof.
  intros H. unfold fetchPersons.
  destruct (Z.ltb_spec (Z.of_nat (String.length term)) 3); [reflexivity | lia].
Qed.

Lemma fetchPersons_long type term p append k kp km u :
  (3 <= String.length term)%nat ->
  fetchPersons type term p append k kp km u =
  (u, [mkRequest
         (Literal (if 1 <? p
                   then (API ++ "/person/?search=" ++ term ++ "&page=" ++ JS.toString p)%string
                   else (API ++ "/person/?search=" ++ term)%string))
         (ThenPersons k kp km p append)]).
Proof.
  intros H. unfold fetchPersons.
  destruct (Z.ltb_spec (Z.of_nat (String.length term)) 3); [lia |].
  destruct (1 <? p); reflexivity.
Qed.

Lemma effectsOnUpdate_fst c0 c u : fst (effectsOnUpdate c0 c u) = u.
Proof.
  unfold effectsOnUpdate. rewrite !andThen_run. simpl.
  destruct (sameSelections c0 c); simpl;
    destruct (directorSearch c0 =? directorSearch c)%string; simpl;
    destruct (actorSearch c0 =? actorSearch c)%string; simpl;
    unfold actorSearchEffect, directorSearchEffect;
    rewrite ?fetchPersons_fst; reflexivity.
Qed.

Lemma react_fst h u : fst (react h u) = fst (h u).
Proof.
  unfold react. destruct (h u) as [u1 r1].
  pose proof (effectsOnUpdate_fst (app u) (app u1) u1) as E.
  destruct (effectsOnUpdate (app u) (app u1) u1) as [u2 r2]. exact E.
Qed.

Lemma react_snd h u :
  snd (react h u) =
  snd (h u) ++ effectRequests (app u) (app (fst (h u))) (fst (h u)).
Proof.
  unfold react, effectRequests. destruct (h u) as [u1 r1]. simpl.
  destruct (effectsOnUpdate (app u) (app u1) u1) as [u2 r2]. reflexivity.
Qed.

Lemma dispatch_ui h w : ui (dispatch h w) = fst (h (ui w)).
Proof.
  unfold dispatch. rewrite <- react_fst.
  destruct (react h (ui w)); reflexivity.
Qed.

Lemma dispatch_inflight h w :
  inflight (dispatch h w) =
  inflight w ++ snd (h (ui w))
             ++ effectRequests (app (ui w)) (app (fst (h (ui w)))) (fst (h (ui w))).
Proof.
  unfold dispatch. rewrite <- react_snd.
  destruct (react h (ui w)); reflexivity.
Qed.

(** The effects after a render in which each person search is unchanged
    or shorter than three characters. *)
Lemma effectRequests_quiet_terms c0 c u :
  actorSearch c = actorSearch c0 \/ (String.length (actorSearch c) < 3)%nat ->
  directorSearch c = directorSearch c0 \/ (String.length (directorSearch c) < 3)%nat ->
  effectRequests c0 c u =
  if sameSelections c0 c then [] else [movieRequest c 1 false].
Proof.
  intros Ha Hd. unfold effectRequests, effectsOnUpdate.
  rewrite !andThen_run.
  assert (Ea : forall v, snd ((if (actorSearch c0 =? actorSearch c)%string
                    then skip else actorSearchEffect c) v) = []
               /\ fst ((if (actorSearch c0 =? actorSearch c)%string
                    then skip else actorSearchEffect c) v) = v).
  { intros v. destruct Ha as [Ha | Ha].
    - rewrite Ha, String.eqb_refl. split; reflexivity.
    - destruct (actorSearch c0 =? actorSearch c)%string; [split; reflexivity |].
      unfold actorSearchEffect. rewrite fetchPersons_short by exact Ha.
      split; reflexivity. }
  assert (Ed : forall v, snd ((if (directorSearch c0 =? directorSearch c)%string
                    then skip else directorSearchEffect c) v) = []
               /\ fst ((if (directorSearch c0 =? directorSearch c)%string
                    then skip else directorSearchEffect c) v) = v).
  { intros v. destruct Hd as [Hd | Hd].
    - rewrite Hd, String.eqb_refl. split; reflexivity.
    - destruct (directorSearch c0 =? directorSearch c)%string; [split; reflexivity |].
      unfold directorSearchEffect. rewrite fetchPersons_short by exact Hd.
      split; reflexivity. }
  cbn [snd fst].
  rewrite (proj1 (Ea u)), (proj2 (Ea u)), (proj1 (Ed u)), (proj2 (Ed u)).
  destruct (sameSelections c0 c); reflexivity.
Qed.

Lemma optZ_eqb_eq a b : optZ_eqb a b = true <-> a = b.
Proof.
  destruct a as [x|], b as [y|]; simpl; split; intros H;
    try discriminate; try reflexivity.
  - apply Z.eqb_eq in H. congruence.
  - injection H as ->. apply Z.eqb_refl.
Qed.

Lemma sameSelections_refl c : sameSelections c c = true.
Proof.
  unfold sameSelections. rewrite String.eqb_refl.
  repeat (rewrite (proj2 (optZ_eqb_eq _ _) eq_refl)). reflexivity.
Qed.

(** ** Reset *)

Lemma reset_run c u :
  reset c u =
  (mkUI (setDirectorSearch "" (setActorSearch ""
          (setSelectedDirector None (setSelectedActor None
            (setSelectedYear None (setSelectedCountry None
              (setSelectedGenre None (setSearch "" (app u)))))))))
        (opens u),
   [movieRequest c 1 false]).
Proof. reflexivity. Qed.

(** [reset] issues the fetch of its own render first, and the movie effect
    adds the fetch of the cleared selections when something was cleared. *)
Lemma reset_inflight w :
  inflight (dispatch (reset (app (ui w))) w) =
  inflight w ++ movieRequest (app (ui w)) 1 false ::
    (if sameSelections (app (ui w)) (app (fst (reset (app (ui w)) (ui w))))
     then [] else [movieRequest (app (fst (reset (app (ui w)) (ui w)))) 1 false]).
Proof.
  rewrite dispatch_inflight.
  rewrite effectRequests_quiet_terms by (right; simpl; lia).
  rewrite reset_run. reflexivity.
Qed.

(** C9: [reset] leaves every loaded option list and its pagination state
    as it was (genre and country, and the person lists too), changes no
    state variable other than the selections and the search strings, and
    issues requests to the movie endpoint only: no facet is cleared or
    fetched again. *)
Theorem reset_keeps_facet_options (w : World) :
  exists w',
    fire ResetClick w = Some w' /\
    genres (app (ui w')) = genres (app (ui w)) /\
    genrePage (app (ui w')) = genrePage (app (ui w)) /\
    hasMoreGenres (app (ui w')) = hasMoreGenres (app (ui w)) /\
    countries (app (ui w')) = countries (app (ui w)) /\
    countryPage (app (ui w')) = countryPage (app (ui w)) /\
    hasMoreCountries (app (ui w')) = hasMoreCountries (app (ui w)) /\
    actors (app (ui w')) = actors (app (ui w)) /\
    actorPage (app (ui w')) = actorPage (app (ui w)) /\
    hasMoreActors (app (ui w')) = hasMoreActors (app (ui w)) /\
    directors (app (ui w')) = directors (app (ui w)) /\
    directorPage (app (ui w')) = directorPage (app (ui w)) /\
    hasMoreDirectors (app (ui w')) = hasMoreDirectors (app (ui w)) /\
    movies (app (ui w')) = movies (app (ui w)) /\
    page (app (ui w')) = page (app (ui w)) /\
    hasMore (app (ui w')) = hasMore (app (ui w)) /\
    opens (ui w') = opens (ui w) /\
    (exists fresh,
        inflight w' = inflight w ++ fresh /\
        forallb isMovieRequest fresh = true).
Proof.
  eexists. split; [reflexivity |].
  rewrite dispatch_ui, reset_run. cbn [fst app opens].
  repeat (split; [reflexivity |]).
  rewrite reset_inflight. eexists. split; [reflexivity |].
  destruct (sameSelections _ _); reflexivity.
Qed.

(** C4: the movie endpoint is asked twice when [reset] is clicked with a
    genre selected.  The first request is the [fetchMovies] that [reset]
    calls itself: it still carries the filter of the render that defined
    it.  The second comes from the movie effect and is the unfiltered one.
    When the filtered response is the later of the two, the list shows the
    filtered movies although nothing is selected. *)
Theorem reset_fetches_with_old_filter :
  let drama := mkOpt 5 "Drama" in
  let film n t := mkMovie n t "" "7.0" 2020 [drama] in
  let clicks :=
    [Network 0%nat (Catalog (mkData [drama] None));
     User (ButtonClick Genre);
     User (OptionClick Genre drama);
     User ResetClick] in
  let arrivals :=
    [Network 4%nat (Movies (mkData [film 1 "A"; film 2 "B"] None));
     Network 3%nat (Movies (mkData [film 1 "A"] None))] in
  option_map (fun w => map url (issuedSince 3 w)) (run clicks mount) =
    Some [WithParams (API ++ "/movie/?")%string [("genres", "5"); ("page", "1")];
          WithParams (API ++ "/movie/?")%string [("page", "1")]] /\
  option_map (fun w => (selectedGenre (app (ui w)), movies (app (ui w))))
             (run (clicks ++ arrivals) mount) =
    Some (None, [film 1 "A"]).
Proof. split; vm_compute; reflexivity. Qed.

(** ** Failed fetches *)

(** A rejected promise runs no callback: the request leaves the list of
    those in flight and the view is what it was. *)
Lemma settle_Rejected (w : World) (i : nat) :
  (i < length (inflight w))%nat ->
  exists w',
    settle i Rejected w = Some w' /\
    ui w' = ui w /\
    inflight w' = without i (inflight w).
Proof.
  intros Hi. unfold settle.
  destruct (nth_error (inflight w) i) as [q|] eqn:E.
  2:{ apply nth_error_None in E. lia. }
  cbn [onResponse]. eexists. split; [reflexivity |]. split.
  - rewrite dispatch_ui. reflexivity.
  - rewrite dispatch_inflight. cbn [ui inflight update fst snd app].
    rewrite effectRequests_quiet_terms by (left; reflexivity).
    rewrite sameSelections_refl, !app_nil_r. reflexivity.
Qed.

(** ** Overlapping fetches *)

(** C1 refuted as stated: the title search is typed as "a" and then as
    "b", so the fetch for "a" is superseded.  The response for "b"
    arrives first and is shown; the response for "a" arrives later and
    replaces it, although the title search is still "b".  The same
    happens to the actor list with the terms "ann" and "anna". *)
Lemma late_response_overwrites_newer :
  let film n t := mkMovie n t "" "7.0" 2020 [] in
  let typed := [User (TitleInput "a"); User (TitleInput "b")] in
  let forB := Network 4%nat (Movies (mkData [film 2 "B"] None)) in
  let forA := Network 3%nat (Movies (mkData [film 1 "A"] None)) in
  let shown w := (search (app (ui w)), movies (app (ui w))) in
  option_map shown (run (typed ++ [forB]) mount) = Some ("b", [film 2 "B"]) /\
  option_map shown (run (typed ++ [forB; forA]) mount) = Some ("b", [film 1 "A"]) /\
  let terms := [User (ButtonClick Actor); User (SearchInput Actor "ann");
                User (SearchInput Actor "anna")] in
  let forAnna := Network 4%nat (Persons (mkData [mkPerson 8 "Anna"] None)) in
  let forAnn := Network 3%nat (Persons (mkData [mkPerson 7 "Ann"] None)) in
  let listed w := (actorSearch (app (ui w)), actors (app (ui w))) in
  option_map listed (run (terms ++ [forAnna; forAnn]) mount) =
    Some ("anna", [mkOpt 7 "Ann"]).
Proof. repeat split; vm_compute; reflexivity. Qed.

(** C1 as amended: no source compares a response with the requests issued
    since.  Whatever else is in flight or was applied meanwhile, the
    response of any request in flight is applied when it arrives, with the
    page number and the append flag of its own request; so the state
    reflects the response that arrived last. *)
Theorem response_applied_on_arrival (w : World) (i : nat) (q : Request) :
  nth_error (inflight w) i = Some q ->
  (forall p append data,
      callback q = ThenMovies p append ->
      exists w',
        settle i (Movies data) w = Some w' /\
        movies (app (ui w')) =
          (if append then movies (app (ui w)) ++ results data else results data) /\
        hasMore (app (ui w')) = JS.truthyStr (next data) /\
        page (app (ui w')) = p /\
        inflight w' = without i (inflight w)) /\
  (forall k kp km p append data,
      callback q = ThenPersons k kp km p append ->
      exists w',
        settle i (Persons data) w = Some w' /\
        listOf k (app (ui w')) =
          (if append then listOf k (app (ui w)) ++ map mapPerson (results data)
           else map mapPerson (results data)) /\
        inflight w' = without i (inflight w)) /\
  (forall endpoint k p append data,
      callback q = ThenData endpoint k p append ->
      exists w',
        settle i (Catalog data) w = Some w' /\
        listOf k (app (ui w')) =
          (if append then listOf k (app (ui w)) ++ map mapFn (results data)
           else map mapFn (results data)) /\
        inflight w' = without i (inflight w)).
Proof.
  intros Hq. unfold settle. rewrite Hq.
  repeat split; intros; rewrite H; cbn [onResponse];
    eexists; (split; [reflexivity |]);
    rewrite dispatch_ui, dispatch_inflight; cbn [ui inflight update fst snd app].
  - rewrite effectRequests_quiet_terms by (left; reflexivity).
    change (sameSelections (app (ui w)) (fetchMovies_then p append data (app (ui w))))
      with (sameSelections (app (ui w)) (app (ui w))).
    rewrite sameSelections_refl, !app_nil_r.
    repeat split; destruct append; reflexivity.
  - rewrite effectRequests_quiet_terms
      by (left; destruct k, kp, km; reflexivity).
    replace (sameSelections (app (ui w))
               (fetchPersons_then k kp km p append data (app (ui w))))
      with (sameSelections (app (ui w)) (app (ui w)))
      by (destruct k, kp, km; reflexivity).
    rewrite sameSelections_refl, !app_nil_r.
    split; [| reflexivity].
    destruct k, kp, km, append; reflexivity.
  - assert (E : forall f : State -> Prop,
               (forall s, f s -> f (setGenrePage p (setHasMoreGenres (JS.truthyStr (next data)) s))) ->
               (forall s, f s -> f (setCountryPage p (setHasMoreCountries (JS.truthyStr (next data)) s))) ->
               (forall s, f s -> f (callList k (fun prev => if append then prev ++ map mapFn (results data) else map mapFn (results data)) s)) ->
               f (app (ui w)) ->
               f (fetchData_then endpoint k p append data (app (ui w)))).
    { intros f Hg Hc Hl H0. unfold fetchData_then.
      destruct (JS.includes endpoint "genre"); [apply Hg, Hl, H0 |].
      destruct (JS.includes endpoint "country"); [apply Hc, Hl, H0 | apply Hl, H0]. }
    rewrite effectRequests_quiet_terms.
    + replace (sameSelections (app (ui w))
                 (fetchData_then endpoint k p append data (app (ui w))))
        with true.
      * rewrite !app_nil_r. split; [| reflexivity].
        unfold fetchData_then.
        destruct (JS.includes endpoint "genre");
          [| destruct (JS.includes endpoint "country")];
          destruct k, append; reflexivity.
      * symmetry.
        apply (E (fun s => sameSelections (app (ui w)) s = true));
          try (intros s Hs; exact Hs); [| apply sameSelections_refl].
        intros s Hs. destruct k; exact Hs.
    + left. apply (E (fun s => actorSearch s = actorSearch (app (ui w))));
        try (intros s Hs; exact Hs); [| reflexivity].
      intros s Hs. destruct k; exact Hs.
    + left. apply (E (fun s => directorSearch s = directorSearch (app (ui w))));
        try (intros s Hs; exact Hs); [| reflexivity].
      intros s Hs. destruct k; exact Hs.
Qed.

Lemma response_applied_on_arrival_witness :
  let q := movieRequest initialState 1 false in
  nth_error (inflight mount) 2 = Some q /\
  exists w',
    settle 2 (Movies (mkData [mkMovie 1 "A" "" "7.0" 2020 []] None)) mount = Some w' /\
    movies (app (ui w')) = [mkMovie 1 "A" "" "7.0" 2020 []].
Proof.
  split; [reflexivity |].
  destruct (response_applied_on_arrival mount 2 (movieRequest initialState 1 false)
              eq_refl) as [Hm _].
  destruct (Hm 1 false (mkData [mkMovie 1 "A" "" "7.0" 2020 []] None) eq_refl)
    as [w' [Hs [Hmov _]]].
  exists w'. split; [exact Hs | exact Hmov].
Defined.

(** ** The composed movie query *)

Lemma In_appendIf (t : bool) key value params (kv : string * string) :
  In kv (appendIf t key value params) <->
  In kv params \/ (t = true /\ kv = (key, value)).
Proof.
  unfold appendIf. destruct t.
  - rewrite in_app_iff. simpl. intuition congruence.
  - intuition congruence.
Qed.

(** The pairs of the query, one by one. *)
Lemma fetchMovies_params_In (c : State) (p : Z) (kv : string * string) :
  In kv (fetchMovies_params c p) <->
  (JS.trim (search c) <> "" /\ kv = ("search", JS.trim (search c))) \/
  (exists d, JS.truthy (selectedOf c d) = true /\
             kv = (filterKey d, selectionText (selectedOf c d))) \/
  kv = ("page", JS.toString p).
Proof.
  unfold fetchMovies_params. rewrite in_app_iff, !In_appendIf. simpl.
  rewrite negb_true_iff, String.eqb_neq. split.
  - intros [[[[[[[[] | H] | H] | H] | H] | H] | H] | [H | []]].
    + left. exact H.
    + right; left. exists Genre. exact H.
    + right; left. exists Country. exact H.
    + right; left. exists Year. exact H.
    + right; left. exists Actor. exact H.
    + right; left. exists Director. exact H.
    + right; right. symmetry. exact H.
  - intros [H | [[d H] | H]].
    + tauto.
    + destruct d; simpl in H; tauto.
    + right. left. symmetry. exact H.
Qed.

(** The keys of the query are pairwise different. *)
Lemma fetchMovies_params_NoDup (c : State) (p : Z) :
  NoDup (map fst (fetchMovies_params c p)).
Proof.
  unfold fetchMovies_params, appendIf.
  destruct (negb _), (JS.truthy (selectedGenre c)),
    (JS.truthy (selectedCountry c)), (JS.truthy (selectedYear c)),
    (JS.truthy (selectedActor c)), (JS.truthy (selectedDirector c));
    cbn [map fst List.app];
    repeat (constructor; [cbn [In]; intuition discriminate |]); constructor.
Qed.

Lemma write_app x w : app (ui (write x w)) = writeState x (app (ui w)).
Proof. unfold write. rewrite dispatch_ui. reflexivity. Qed.

(** After a sequence of writes each selection holds the value of the last
    write to it. *)
Lemma writes_selected xs : forall w d,
  selectedOf (app (ui (writes xs w))) d =
  lastSelect d xs (selectedOf (app (ui w)) d).
Proof.
  induction xs as [| x xs IH]; intros w d; [reflexivity |].
  cbn [writes fold_left]. fold (writes xs (write x w)).
  rewrite IH, write_app.
  destruct x as [d' v | text]; cbn [lastSelect]; [| destruct d; reflexivity].
  destruct d, d'; reflexivity.
Qed.

Lemma writes_search xs : forall w,
  search (app (ui (writes xs w))) = lastTitle xs (search (app (ui w))).
Proof.
  induction xs as [| x xs IH]; intros w; [reflexivity |].
  cbn [writes fold_left]. fold (writes xs (write x w)).
  rewrite IH, write_app.
  destruct x as [d' v | text]; cbn [lastTitle]; [destruct d' |]; reflexivity.
Qed.

Lemma lastSelect_nonzero d xs : forall start,
  forallb (fun x => negb (selectsZero x)) xs = true ->
  start <> Some 0 ->
  lastSelect d xs start <> Some 0.
Proof.
  induction xs as [| x xs IH]; intros start Hxs Hstart; [exact Hstart |].
  cbn [forallb] in Hxs. apply andb_true_iff in Hxs as [Hx Hxs].
  destruct x as [d' v | text]; cbn [lastSelect]; apply IH; try assumption.
  destruct (Slot_eqb d d'); [| exact Hstart].
  destruct v as [n |]; [| discriminate].
  simpl in Hx. apply negb_true_iff, Z.eqb_neq in Hx. congruence.
Qed.

(** C2 refuted as stated: a title search of one blank is not empty, yet
    the query has no [search] key; and a title search with a leading blank
    is sent without it, not as the current value. *)
Lemma blank_title_search_not_in_query :
  let c := app (ui (writes [SetTitleSearch " "] mount)) in
  let c' := app (ui (writes [SetTitleSearch " up"] mount)) in
  search c = " " /\
  fetchMovies_params c 1 = [("page", "1")] /\
  search c' = " up" /\
  fetchMovies_params c' 1 = [("search", "up"); ("page", "1")].
Proof. repeat split. Qed.

(** C2 as amended: after any sequence of selection writes with non-zero
    ids, the query holds exactly these pairs: [search] with the trimmed
    title search when the trimmed text is not empty; the key of each
    facet whose last write selected an id, with that id in decimal; and
    [page].  No key occurs twice, and a facet whose last write was [null]
    has no key. *)
Theorem composed_query_matches_selections (xs : list Write) (p : Z) :
  forallb (fun x => negb (selectsZero x)) xs = true ->
  let c := app (ui (writes xs mount)) in
  (forall key value,
      In (key, value) (fetchMovies_params c p) <->
      (key = "search" /\ value = JS.trim (lastTitle xs "") /\ value <> "") \/
      (exists d n, key = filterKey d /\ lastSelect d xs None = Some n /\
                   value = JS.toString n) \/
      (key = "page" /\ value = JS.toString p)) /\
  NoDup (map fst (fetchMovies_params c p)).
Proof.
  intros Hxs c. split; [| apply fetchMovies_params_NoDup].
  intros key value. rewrite fetchMovies_params_In.
  subst c. rewrite writes_search. cbn [mount ui app search initialState].
  assert (Hsel : forall d, selectedOf (app (ui (writes xs mount))) d
                           = lastSelect d xs None).
  { intros d. rewrite writes_selected. destruct d; reflexivity. }
  split.
  - intros [[Ht E] | [[d [Ht E]] | E]].
    + left. injection E as -> ->. auto.
    + right; left. rewrite Hsel in Ht, E.
      destruct (lastSelect d xs None) as [n |] eqn:El; [| discriminate].
      exists d, n. injection E as -> ->. auto.
    + right; right. injection E as -> ->. auto.
  - intros [[-> [-> Ht]] | [[d [n [-> [El ->]]]] | [-> ->]]].
    + left. auto.
    + right; left. exists d. rewrite Hsel, El. split; [| reflexivity].
      simpl. apply negb_true_iff, Z.eqb_neq. intros ->.
      apply (lastSelect_nonzero d xs None Hxs); [discriminate | exact El].
    + right; right. reflexivity.
Qed.

Lemma composed_query_matches_selections_witness :
  let xs := [Select Genre (Some 5); SetTitleSearch "up";
             Select Country (Some 12); Select Genre None] in
  let c := app (ui (writes xs mount)) in
  forallb (fun x => negb (selectsZero x)) xs = true /\
  In ("countries", "12") (fetchMovies_params c 1) /\
  (forall value, ~ In ("genres", value) (fetchMovies_params c 1)).
Proof.
  intros xs c.
  pose proof (composed_query_matches_selections xs 1 eq_refl) as [H _].
  split; [reflexivity |]. split.
  - apply H. right; left. exists Country, 12. repeat split.
  - intros value Hin. apply H in Hin.
    destruct Hin as [[E _] | [[d [n [E [Hl _]]]] | [E _]]];
      try discriminate E.
    destruct d; try discriminate E. discriminate Hl.
Defined.

(** ** Refetch on a changed selection *)



(** On a plain selection write the fresh fetch is the only request. *)
Lemma write_changed_inflight (x : Write) (w : World) :
  inflight (write x w) =
  inflight w ++
    (if sameSelections (app (ui w)) (app (ui (write x w))) then []
     else [movieRequest (app (ui (write x w))) 1 false]).
Proof.
  rewrite write_app. unfold write. rewrite dispatch_inflight.
  cbn [update fst snd app List.app].
  rewrite effectRequests_quiet_terms;
    [reflexivity | left; destruct x as [[] |]; reflexivity
                 | left; destruct x as [[] |]; reflexivity].
Qed.

(** ** The search box of the lazy dropdowns *)

Lemma sameSelections_setActorSearch c v :
  sameSelections c (setActorSearch v c) = true.
Proof. exact (sameSelections_refl c). Qed.

Lemma sameSelections_setDirectorSearch c v :
  sameSelections c (setDirectorSearch v c) = true.
Proof. exact (sameSelections_refl c). Qed.

Lemma effectRequests_setActorSearch c term u :
  effectRequests c (setActorSearch term c) u =
  if (actorSearch c =? term)%string then []
  else snd (fetchPersons "actor" term 1 false
                         SetActors SetActorPage SetHasMoreActors u).
Proof.
  unfold effectRequests, effectsOnUpdate. rewrite !andThen_run.
  rewrite sameSelections_setActorSearch.
  change (directorSearch (setActorSearch term c)) with (directorSearch c).
  change (actorSearch (setActorSearch term c)) with term.
  rewrite String.eqb_refl. cbn [skip fst snd]. rewrite !app_nil_r.
  destruct (actorSearch c =? term)%string; reflexivity.
Qed.

Lemma effectRequests_setDirectorSearch c term u :
  effectRequests c (setDirectorSearch term c) u =
  if (directorSearch c =? term)%string then []
  else snd (fetchPersons "director" term 1 false
                         SetDirectors SetDirectorPage SetHasMoreDirectors u).
Proof.
  unfold effectRequests, effectsOnUpdate. rewrite !andThen_run.
  rewrite sameSelections_setDirectorSearch.
  change (actorSearch (setDirectorSearch term c)) with (actorSearch c).
  change (directorSearch (setDirectorSearch term c)) with term.
  rewrite String.eqb_refl. cbn [skip fst snd]. rewrite !app_nil_r.
  destruct (directorSearch c =? term)%string; reflexivity.
Qed.

(** C5: the search box of a lazy dropdown is a controlled input
    ([value={searchTerm}]): its [onChange] delivers a value that differs
    from the current term, and the other callers of [onSearch] pass the
    empty string.  Setting the search term stores it and leaves the
    options and [hasMore] as they are.  A term shorter than three
    characters issues no request.  A term of at least three characters,
    different from the current one as every typed value is, issues exactly
    one request, for the first page of that term, and its success replaces
    the options by the results.  (Were the current term delivered again,
    the effect would not run and nothing would be issued.) *)
Theorem lazy_search_fetches_changed_long_term
    (d : Slot) (term : string) (w : World) :
  isOpen (opens (ui w)) d = true ->
  Dropdown.isLazy (dropdown (app (ui w)) d) = true ->
  exists w',
    fire (SearchInput d term) w = Some w' /\
    Dropdown.searchTerm (dropdown (app (ui w')) d) = term /\
    Dropdown.options (dropdown (app (ui w')) d) =
      Dropdown.options (dropdown (app (ui w)) d) /\
    Dropdown.hasMore (dropdown (app (ui w')) d) =
      Dropdown.hasMore (dropdown (app (ui w)) d) /\
    ((String.length term < 3)%nat -> inflight w' = inflight w) /\
    (term = Dropdown.searchTerm (dropdown (app (ui w)) d) ->
     inflight w' = inflight w) /\
    ((3 <= String.length term)%nat ->
     term <> Dropdown.searchTerm (dropdown (app (ui w)) d) ->
     exists k kp km,
       inflight w' =
         inflight w ++
           [mkRequest (Literal (API ++ "/person/?search=" ++ term)%string)
                      (ThenPersons k kp km 1 false)] /\
       forall data,
         exists w'',
           settle (length (inflight w)) (Persons data) w' = Some w'' /\
           Dropdown.options (dropdown (app (ui w'')) d) =
             map mapPerson (results data) /\
           Dropdown.hasMore (dropdown (app (ui w'')) d) =
             JS.truthyStr (next data)).
Proof.
  intros Hopen Hlazy.
  destruct d; try discriminate Hlazy.
  - set (w' := dispatch (update (setActorSearch term)) w).
    assert (Hf : fire (SearchInput Actor term) w = Some w').
    { unfold fire, handler. rewrite Hopen. reflexivity. }
    assert (Hui : ui w' = mkUI (setActorSearch term (app (ui w))) (opens (ui w))).
    { subst w'. rewrite dispatch_ui. reflexivity. }
    assert (Hin : inflight w' = inflight w ++
              if (actorSearch (app (ui w)) =? term)%string then []
              else snd (fetchPersons "actor" term 1 false SetActors SetActorPage
                                     SetHasMoreActors (ui w'))).
    { rewrite Hui. subst w'. rewrite dispatch_inflight.
      cbn [update fst snd List.app app]. rewrite effectRequests_setActorSearch.
      reflexivity. }
    exists w'. rewrite Hui, Hin. cbn [app dropdown Dropdown.searchTerm].
    split; [exact Hf |].
    do 3 (split; [reflexivity |]). split; [| split].
    + intros Hshort. rewrite fetchPersons_short by exact Hshort.
      destruct (_ =? _)%string; apply app_nil_r.
    + intros ->. rewrite String.eqb_refl. apply app_nil_r.
    + intros Hlong Hnew.
      destruct (String.eqb_spec (actorSearch (app (ui w))) term) as [E | _];
        [congruence |].
      rewrite fetchPersons_long in * by exact Hlong.
      cbn [snd Z.ltb Z.compare] in *.
      exists SetActors, SetActorPage, SetHasMoreActors. split; [reflexivity |].
      intros data. unfold settle. rewrite Hin.
      rewrite nth_error_app2 by lia. rewrite Nat.sub_diag.
      cbn [nth_error callback onResponse].
      eexists. split; [reflexivity |].
      rewrite dispatch_ui. cbn [ui]. rewrite Hui. split; reflexivity.
  - set (w' := dispatch (update (setDirectorSearch term)) w).
    assert (Hf : fire (SearchInput Director term) w = Some w').
    { unfold fire, handler. rewrite Hopen. reflexivity. }
    assert (Hui : ui w' = mkUI (setDirectorSearch term (app (ui w))) (opens (ui w))).
    { subst w'. rewrite dispatch_ui. reflexivity. }
    assert (Hin : inflight w' = inflight w ++
              if (directorSearch (app (ui w)) =? term)%string then []
              else snd (fetchPersons "director" term 1 false SetDirectors
                                     SetDirectorPage SetHasMoreDirectors (ui w'))).
    { rewrite Hui. subst w'. rewrite dispatch_inflight.
      cbn [update fst snd List.app app]. rewrite effectRequests_setDirectorSearch.
      reflexivity. }
    exists w'. rewrite Hui, Hin. cbn [app dropdown Dropdown.searchTerm].
    split; [exact Hf |].
    do 3 (split; [reflexivity |]). split; [| split].
    + intros Hshort. rewrite fetchPersons_short by exact Hshort.
      destruct (_ =? _)%string; apply app_nil_r.
    + intros ->. rewrite String.eqb_refl. apply app_nil_r.
    + intros Hlong Hnew.
      destruct (String.eqb_spec (directorSearch (app (ui w))) term) as [E | _];
        [congruence |].
      rewrite fetchPersons_long in * by exact Hlong.
      cbn [snd Z.ltb Z.compare] in *.
      exists SetDirectors, SetDirectorPage, SetHasMoreDirectors.
      split; [reflexivity |].
      intros data. unfold settle. rewrite Hin.
      rewrite nth_error_app2 by lia. rewrite Nat.sub_diag.
      cbn [nth_error callback onResponse].
      eexists. split; [reflexivity |].
      rewrite dispatch_ui. cbn [ui]. rewrite Hui. split; reflexivity.
Qed.

Lemma lazy_search_fetches_changed_long_term_witness :
  let w := dispatch (Dropdown.toggle Actor false) mount in
  isOpen (opens (ui w)) Actor = true /\
  Dropdown.isLazy (dropdown (app (ui w)) Actor) = true /\
  exists w',
    fire (SearchInput Actor "ann") w = Some w' /\
    Dropdown.searchTerm (dropdown (app (ui w')) Actor) = "ann".
Proof.
  split; [reflexivity |]. split; [reflexivity |].
  destruct (lazy_search_fetches_changed_long_term Actor "ann"
              (dispatch (Dropdown.toggle Actor false) mount) eq_refl eq_refl)
    as [w' [Hf [Ht _]]].
  exists w'. split; [exact Hf | exact Ht].
Defined.

(** ** Closing a dropdown *)

Lemma mousedown_run c target u :
  mousedown c target u =
  (mkUI
     (match target with
      | Some Actor => setDirectorSearch "" (app u)
      | Some Director => setActorSearch "" (app u)
      | _ => setDirectorSearch "" (setActorSearch "" (app u))
      end)
     (mkOpens (containsTarget Genre target && genreOpen (opens u))
              (containsTarget Country target && countryOpen (opens u))
              (containsTarget Year target && yearOpen (opens u))
              (containsTarget Actor target && actorOpen (opens u))
              (containsTarget Director target && directorOpen (opens u))),
   []).
Proof. destruct target as [[] |]; reflexivity. Qed.

Lemma optionClick_Actor c opt u :
  Dropdown.optionClick Actor (dropdown c Actor) opt u =
  (mkUI (setActorSearch "" (setSelectedActor (Some (id opt)) (app u)))
        (opens (fst (setOpen Actor false u))), []).
Proof. reflexivity. Qed.

Lemma optionClick_Director c opt u :
  Dropdown.optionClick Director (dropdown c Director) opt u =
  (mkUI (setDirectorSearch "" (setSelectedDirector (Some (id opt)) (app u)))
        (opens (fst (setOpen Director false u))), []).
Proof. reflexivity. Qed.

(** C10: the click on an entry of a lazy dropdown, and a mouse press
    outside a dropdown, leave that dropdown with the empty search term and
    with the options it had.  The empty term makes [fetchPersons] return
    at once: the entry click issues exactly the requests that the
    selection write alone issues (the movie fetch, when the selection
    changed) and the mouse press issues none. *)
Theorem closing_resets_term_without_fetch :
  (forall (d : Slot) (opt : Opt) (w w' : World),
      Dropdown.isLazy (dropdown (app (ui w)) d) = true ->
      fire (OptionClick d opt) w = Some w' ->
      Dropdown.searchTerm (dropdown (app (ui w')) d) = "" /\
      Dropdown.options (dropdown (app (ui w')) d) =
        Dropdown.options (dropdown (app (ui w)) d) /\
      inflight w' = inflight (write (Select d (Some (id opt))) w) /\
      filter (fun q => negb (isMovieRequest q))
             (issuedSince (length (inflight w)) w') = []) /\
  (forall (d : Slot) (target : option Slot) (w : World),
      containsTarget d target = false ->
      exists w',
        fire (MouseDown target) w = Some w' /\
        isOpen (opens (ui w')) d = false /\
        Dropdown.searchTerm (dropdown (app (ui w')) d) = "" /\
        (forall d', Dropdown.options (dropdown (app (ui w')) d') =
                    Dropdown.options (dropdown (app (ui w)) d')) /\
        inflight w' = inflight w).
Proof.
  split.
  - intros d opt w w' Hlazy Hfire.
    unfold fire, handler in Hfire.
    destruct (isOpen (opens (ui w)) d && _); [| discriminate].
    injection Hfire as <-.
    assert (Hin : inflight (dispatch (Dropdown.optionClick d
                      (dropdown (app (ui w)) d) opt) w)
                  = inflight (write (Select d (Some (id opt))) w)).
    { rewrite write_changed_inflight, write_app, dispatch_inflight.
      destruct d; try discriminate Hlazy;
        rewrite ?optionClick_Actor, ?optionClick_Director;
        cbn [fst snd app List.app];
        rewrite effectRequests_quiet_terms
          by (first [left; reflexivity | right; simpl; lia]);
        reflexivity. }
    split; [| split; [| split]].
    + rewrite dispatch_ui.
      destruct d; try discriminate Hlazy;
        rewrite ?optionClick_Actor, ?optionClick_Director; reflexivity.
    + rewrite dispatch_ui.
      destruct d; try discriminate Hlazy;
        rewrite ?optionClick_Actor, ?optionClick_Director; reflexivity.
    + exact Hin.
    + unfold issuedSince. rewrite Hin, write_changed_inflight.
      rewrite skipn_app, skipn_all, Nat.sub_diag. cbn [skipn List.app].
      destruct (sameSelections _ _); reflexivity.
  - intros d target w Hout.
    eexists. split; [reflexivity |].
    rewrite dispatch_ui, dispatch_inflight, mousedown_run.
    cbn [fst snd app opens List.app].
    split; [| split; [| split]].
    + destruct d; cbn [isOpen genreOpen countryOpen yearOpen actorOpen directorOpen];
        rewrite Hout; reflexivity.
    + destruct d, target as [[] |]; try discriminate Hout; reflexivity.
    + intros d'. destruct d', target as [[] |]; reflexivity.
    + rewrite effectRequests_quiet_terms.
      * replace (sameSelections _ _) with true; [apply app_nil_r |].
        symmetry.
        destruct target as [[] |]; exact (sameSelections_refl (app (ui w))).
      * destruct target as [[] |];
          first [left; reflexivity | right; simpl; lia].
      * destruct target as [[] |];
          first [left; reflexivity | right; simpl; lia].
Qed.

Lemma closing_resets_term_without_fetch_witness :
  let ann := mkOpt 7 "Ann" in
  let listed :=
    [User (ButtonClick Actor); User (SearchInput Actor "ann");
     Network 3%nat (Persons (mkData [mkPerson 7 "Ann"] (Some "next")))] in
  let w := session listed in
  let w' := session (listed ++ [User (OptionClick Actor ann)]) in
  Dropdown.isLazy (dropdown (app (ui w)) Actor) = true /\
  fire (OptionClick Actor ann) w = Some w' /\
  Dropdown.searchTerm (dropdown (app (ui w')) Actor) = "" /\
  Dropdown.options (dropdown (app (ui w')) Actor) = [ann] /\
  containsTarget Actor None = false /\
  exists w'', fire (MouseDown None) w = Some w'' /\ inflight w'' = inflight w.
Proof.
  intros ann listed w w'.
  assert (Hlazy : Dropdown.isLazy (dropdown (app (ui w)) Actor) = true)
    by reflexivity.
  assert (Hfire : fire (OptionClick Actor ann) w = Some w') by reflexivity.
  destruct (proj1 closing_resets_term_without_fetch Actor ann w w' Hlazy Hfire)
    as [Ht [Ho _]].
  destruct (proj2 closing_resets_term_without_fetch Actor None w eq_refl)
    as [w'' [Hf [_ [_ [_ Hin]]]]].
  split; [exact Hlazy |]. split; [exact Hfire |]. split; [exact Ht |].
  split; [rewrite Ho; reflexivity |]. split; [reflexivity |].
  exists w''. split; [exact Hf | exact Hin].
Defined.

(** ** Load more *)

Lemma effectsOnUpdate_same c u : effectsOnUpdate c c u = (u, []).
Proof.
  unfold effectsOnUpdate.
  rewrite !String.eqb_refl, sameSelections_refl. reflexivity.
Qed.

(** A handler that writes no state only adds its requests. *)
Lemma dispatch_fetch_only h w reqs :
  h (ui w) = (ui w, reqs) ->
  dispatch h w = mkWorld (ui w) (inflight w ++ reqs).
Proof.
  intros H. unfold dispatch, react. rewrite H, effectsOnUpdate_same.
  rewrite app_nil_r. reflexivity.
Qed.

(** No callback writes a dependency of an effect. *)
Lemma onResponse_keeps_deps k r f :
  onResponse k r = Some f ->
  forall s, effectsOnUpdate s (f s) = effectsOnUpdate s s.
Proof.
  intros H s.
  assert (E : actorSearch (f s) = actorSearch s /\
              directorSearch (f s) = directorSearch s /\
              sameSelections s (f s) = sameSelections s s).
  { destruct r as [| data | data | data], k as [e k p a | k kp km p a | p a];
      try discriminate H; injection H as <-; try (repeat split; fail).
    - unfold fetchData_then.
      destruct (JS.includes e "genre"); [| destruct (JS.includes e "country")];
        destruct k; repeat split.
    - destruct k, kp, km; repeat split. }
  destruct E as [Ea [Ed Es]].
  unfold effectsOnUpdate. rewrite Ea, Ed, Es.
  rewrite !String.eqb_refl, sameSelections_refl. reflexivity.
Qed.

(** The completion of the request at position [length l]. *)
Lemma settle_at w l r q resp f :
  inflight w = l ++ q :: r ->
  onResponse (callback q) resp = Some f ->
  settle (length l) resp w =
  Some (mkWorld (mkUI (f (app (ui w))) (opens (ui w))) (l ++ r)).
Proof.
  intros Hin Hf. unfold settle.
  rewrite Hin, nth_error_app2 by lia. rewrite Nat.sub_diag. cbn [nth_error].
  rewrite Hf. f_equal. unfold dispatch, react. cbn [ui inflight update app opens].
  rewrite (onResponse_keeps_deps _ _ _ Hf), effectsOnUpdate_same.
  unfold without. rewrite firstn_app, Nat.sub_diag, firstn_all. cbn [firstn].
  rewrite skipn_app, skipn_all2 by lia.
  replace (S (length l) - length l)%nat with 1%nat by lia.
  cbn [skipn List.app]. rewrite !app_nil_r. reflexivity.
Qed.

Lemma loadMoreClick_run w :
  hasMore (app (ui w)) = true ->
  fire LoadMoreClick w =
  Some (mkWorld (ui w)
          (inflight w ++ [movieRequest (app (ui w)) (page (app (ui w)) + 1) true])).
Proof.
  intros H. unfold fire, handler. rewrite H. f_equal.
  apply dispatch_fetch_only. reflexivity.
Qed.

Lemma fetchPersons_run type term p append k kp km u :
  fetchPersons type term p append k kp km u =
  (u, if (String.length term <? 3)%nat then []
      else [personRequest term p append k kp km]).
Proof.
  destruct (Nat.ltb_spec (String.length term) 3) as [H | H].
  - apply fetchPersons_short, H.
  - apply fetchPersons_long, H.
Qed.

Lemma scroll_run d scrollTop scrollHeight clientHeight w :
  isOpen (opens (ui w)) d = true ->
  fire (Scroll d scrollTop scrollHeight clientHeight) w =
  Some (mkWorld (ui w)
          (inflight w ++
             if (scrollHeight - scrollTop <=? clientHeight + 5)
                && Dropdown.hasMore (dropdown (app (ui w)) d)
             then scrollRequests (app (ui w)) d else [])).
Proof.
  intros Hopen. unfold fire, handler. rewrite Hopen. f_equal.
  apply dispatch_fetch_only. unfold Dropdown.onScroll.
  destruct (_ && _); [| reflexivity].
  destruct d; try reflexivity; apply fetchPersons_run.
Qed.

(** C8 refuted as stated: the actor list was loaded for "ann" and more
    pages exist; the dropdown is closed by a mouse press outside, which
    empties the search term, and opened again.  [hasMore] is true, the
    list is scrolled to its end, and no request is issued. *)
Lemma loadMore_with_short_term_issues_nothing :
  let ann := mkOpt 7 "Ann" in
  let w := session
    [User (ButtonClick Actor); User (SearchInput Actor "ann");
     Network 3%nat (Persons (mkData [mkPerson 7 "Ann"] (Some "next")));
     User (MouseDown None); User (ButtonClick Actor)] in
  Dropdown.hasMore (dropdown (app (ui w)) Actor) = true /\
  Dropdown.options (dropdown (app (ui w)) Actor) = [ann] /\
  isOpen (opens (ui w)) Actor = true /\
  option_map inflight (fire (Scroll Actor 0 0 0) w) = Some (inflight w).
Proof. repeat split. Qed.

(** C8 as amended: without [hasMore] no load-more fetch is issued: the
    button of the movie list is not rendered and the scroll handler does
    nothing.  With [hasMore], the button fetches page + 1 of the current
    query, and a list scrolled to its end fetches page + 1 of the genre or
    country list, or of the person list for the current search term when
    that term has at least three characters; a lazy dropdown whose term is
    shorter issues nothing.  The success of each of these requests appends
    its results and stores the page number. *)
Theorem loadMore_needs_hasMore_and_long_term :
  (forall w, hasMore (app (ui w)) = false -> fire LoadMoreClick w = None) /\
  (forall d scrollTop scrollHeight clientHeight w w',
      Dropdown.hasMore (dropdown (app (ui w)) d) = false ->
      fire (Scroll d scrollTop scrollHeight clientHeight) w = Some w' ->
      w' = w) /\
  (forall w data,
      hasMore (app (ui w)) = true ->
      exists w' w'',
        fire LoadMoreClick w = Some w' /\
        ui w' = ui w /\
        inflight w' =
          inflight w ++ [movieRequest (app (ui w)) (page (app (ui w)) + 1) true] /\
        settle (length (inflight w)) (Movies data) w' = Some w'' /\
        movies (app (ui w'')) = movies (app (ui w)) ++ results data /\
        page (app (ui w'')) = page (app (ui w)) + 1) /\
  (forall d scrollTop scrollHeight clientHeight w,
      isOpen (opens (ui w)) d = true ->
      Dropdown.hasMore (dropdown (app (ui w)) d) = true ->
      scrollHeight - scrollTop <= clientHeight + 5 ->
      let c := app (ui w) in
      exists w',
        fire (Scroll d scrollTop scrollHeight clientHeight) w = Some w' /\
        ui w' = ui w /\
        match d with
        | Genre =>
            inflight w' =
              inflight w ++ [catalogRequest "genre" SetGenres (genrePage c + 1)] /\
            forall data, exists w'',
              settle (length (inflight w)) (Catalog data) w' = Some w'' /\
              genres (app (ui w'')) = genres c ++ map mapFn (results data) /\
              genrePage (app (ui w'')) = genrePage c + 1
        | Country =>
            inflight w' =
              inflight w ++ [catalogRequest "country" SetCountries (countryPage c + 1)] /\
            forall data, exists w'',
              settle (length (inflight w)) (Catalog data) w' = Some w'' /\
              countries (app (ui w'')) = countries c ++ map mapFn (results data) /\
              countryPage (app (ui w'')) = countryPage c + 1
        | Year => False
        | Actor =>
            ((String.length (actorSearch c) < 3)%nat -> inflight w' = inflight w) /\
            ((3 <= String.length (actorSearch c))%nat ->
             inflight w' =
               inflight w ++ [personRequest (actorSearch c) (actorPage c + 1) true
                                SetActors SetActorPage SetHasMoreActors] /\
             forall data, exists w'',
               settle (length (inflight w)) (Persons data) w' = Some w'' /\
               actors (app (ui w'')) = actors c ++ map mapPerson (results data) /\
               actorPage (app (ui w'')) = actorPage c + 1)
        | Director =>
            ((String.length (directorSearch c) < 3)%nat -> inflight w' = inflight w) /\
            ((3 <= String.length (directorSearch c))%nat ->
             inflight w' =
               inflight w ++ [personRequest (directorSearch c) (directorPage c + 1) true
                                SetDirectors SetDirectorPage SetHasMoreDirectors] /\
             forall data, exists w'',
               settle (length (inflight w)) (Persons data) w' = Some w'' /\
               directors (app (ui w'')) = directors c ++ map mapPerson (results data) /\
               directorPage (app (ui w'')) = directorPage c + 1)
        end).
Proof.
  split; [| split; [| split]].
  - intros w H. unfold fire, handler. rewrite H. reflexivity.
  - intros d st sh ch w w' Hmore Hfire.
    unfold fire, handler in Hfire.
    destruct (isOpen (opens (ui w)) d) eqn:Hopen; [| discriminate].
    injection Hfire as <-.
    rewrite (dispatch_fetch_only _ w []).
    + rewrite app_nil_r. destruct w; reflexivity.
    + unfold Dropdown.onScroll. rewrite Hmore, andb_false_r. reflexivity.
  - intros w data H. rewrite (loadMoreClick_run w H).
    eexists. eexists. split; [reflexivity |]. split; [reflexivity |].
    split; [reflexivity |]. split.
    + eapply (settle_at _ (inflight w) []); reflexivity.
    + split; reflexivity.
  - intros d st sh ch w Hopen Hmore Hgeo c.
    rewrite (scroll_run d st sh ch w Hopen), Hmore.
    apply Z.leb_le in Hgeo. rewrite Hgeo. cbn [andb].
    eexists. split; [reflexivity |]. split; [reflexivity |].
    cbn [inflight ui].
    destruct d; cbn [scrollRequests]; try discriminate Hmore.
    + split; [reflexivity |]. intros data. eexists. split.
      * eapply (settle_at _ (inflight w) []); reflexivity.
      * split; reflexivity.
    + split; [reflexivity |]. intros data. eexists. split.
      * eapply (settle_at _ (inflight w) []); reflexivity.
      * split; reflexivity.
    + fold c. destruct (Nat.ltb_spec (String.length (actorSearch c)) 3) as [H | H].
      * split; [intros _; apply app_nil_r | lia].
      * split; [lia |]. intros _. split; [reflexivity |].
        intros data. eexists. split.
        -- eapply (settle_at _ (inflight w) []); reflexivity.
        -- split; reflexivity.
    + fold c. destruct (Nat.ltb_spec (String.length (directorSearch c)) 3) as [H | H].
      * split; [intros _; apply app_nil_r | lia].
      * split; [lia |]. intros _. split; [reflexivity |].
        intros data. eexists. split.
        -- eapply (settle_at _ (inflight w) []); reflexivity.
        -- split; reflexivity.
Qed.

Lemma loadMore_needs_hasMore_and_long_term_witness :
  let film := mkMovie 1 "A" "" "7.0" 2020 [] in
  let more := mkMovie 2 "B" "" "6.5" 2021 [] in
  let w := session [Network 2%nat (Movies (mkData [film] (Some "next")))] in
  hasMore (app (ui w)) = true /\
  exists w' w'',
    fire LoadMoreClick w = Some w' /\
    settle (length (inflight w)) (Movies (mkData [more] None)) w' = Some w'' /\
    movies (app (ui w'')) = [film; more].
Proof.
  intros film more w. split; [reflexivity |].
  destruct (proj1 (proj2 (proj2 loadMore_needs_hasMore_and_long_term))
              w (mkData [more] None) eq_refl)
    as [w' [w'' [Hf [_ [_ [Hs [Hm _]]]]]]].
  exists w', w''. split; [exact Hf |]. split; [exact Hs |].
  rewrite Hm. reflexivity.
Defined.







(** ** What user events and completions can write *)

Lemma without_middle {A} (l : list A) (x : A) (r : list A) :
  without (length l) (l ++ x :: r) = l ++ r.
Proof.
  unfold without. rewrite firstn_app, Nat.sub_diag, firstn_all. cbn [firstn].
  rewrite skipn_app, skipn_all2 by lia.
  replace (S (length l) - length l)%nat with 1%nat by lia.
  cbn [skipn List.app]. rewrite !app_nil_r. reflexivity.
Qed.

(** The shape of every completion. *)
Lemma settle_inv i r w w' :
  settle i r w = Some w' ->
  exists l q l' f,
    inflight w = l ++ q :: l' /\ length l = i /\
    onResponse (callback q) r = Some f /\
    w' = mkWorld (mkUI (f (app (ui w))) (opens (ui w))) (l ++ l').
Proof.
  intros H.
  destruct (nth_error (inflight w) i) as [q |] eqn:Eq.
  2:{ unfold settle in H. rewrite Eq in H. discriminate. }
  destruct (nth_error_split _ _ Eq) as [l [l' [Hin Hlen]]].
  destruct (onResponse (callback q) r) as [f |] eqn:Ef.
  2:{ unfold settle in H. rewrite Eq, Ef in H. discriminate. }
  exists l, q, l', f. repeat (split; [assumption |]).
  subst i. rewrite (settle_at w l l' q r f Hin Ef) in H.
  injection H as <-. reflexivity.
Qed.

Lemma onResponse_registry k r f :
  onResponse k r = Some f -> forall s, registry (f s) = registry s.
Proof.
  intros H s.
  destruct r as [| data | data | data], k as [e k p a | k kp km p a | p a];
    try discriminate H; injection H as <-; try reflexivity.
  - unfold fetchData_then.
    destruct (JS.includes e "genre"); [| destruct (JS.includes e "country")];
      destruct k; reflexivity.
  - destruct k, kp, km; reflexivity.
Qed.

Lemma onScroll_fst c d scrollTop scrollHeight clientHeight u :
  fst (Dropdown.onScroll (dropdown c d) scrollTop scrollHeight clientHeight u) = u.
Proof.
  unfold Dropdown.onScroll. destruct (_ && _); [| reflexivity].
  destruct d; try reflexivity; apply fetchPersons_fst.
Qed.

(** The handlers write selections, search strings and [open] flags only. *)
Lemma handler_loaded u e h :
  handler u e = Some h -> loaded (app (fst (h u))) = loaded (app u).
Proof.
  intros H. destruct e as [v | d | d v | d a b c | d opt | t | |];
    cbn [handler] in H.
  - injection H as <-. reflexivity.
  - injection H as <-. reflexivity.
  - destruct (isOpen (opens u) d && _) eqn:G; [| discriminate].
    injection H as <-. destruct d; try reflexivity;
      rewrite andb_false_r in G; discriminate.
  - destruct (isOpen (opens u) d); [| discriminate].
    injection H as <-. rewrite onScroll_fst. reflexivity.
  - destruct (isOpen (opens u) d && _); [| discriminate].
    injection H as <-. destruct d; reflexivity.
  - injection H as <-. rewrite mousedown_run. destruct t as [[] |]; reflexivity.
  - injection H as <-. reflexivity.
  - destruct (hasMore (app u)); [| discriminate].
    injection H as <-. reflexivity.
Qed.


(** X1: no user event changes a loaded list, a page number or a
    continuation flag: what was fetched stays on the page until a response
    arrives. *)
Theorem user_event_keeps_loaded_data (e : Event) (w w' : World) :
  fire e w = Some w' ->
  loaded (app (ui w')) = loaded (app (ui w)).
Proof.
  unfold fire. intros H.
  destruct (handler (ui w) e) as [h |] eqn:E; [| discriminate].
  injection H as <-. rewrite dispatch_ui.
  exact (handler_loaded _ _ _ E).
Qed.

Lemma user_event_keeps_loaded_data_witness :
  let w := session [Network 2%nat
                      (Movies (mkData [mkMovie 1 "A" "" "7.0" 2020 []] None))] in
  exists w',
    fire ResetClick w = Some w' /\
    movies (app (ui w')) = [mkMovie 1 "A" "" "7.0" 2020 []].
Proof.
  intros w. eexists. split; [reflexivity |].
  pose proof (user_event_keeps_loaded_data ResetClick w _ eq_refl) as H.
  apply (f_equal (fun t => fst (fst (fst (fst (fst (fst t))))))) in H.
  exact H.
Defined.

(** X2: a completion, successful or not, writes no selection, no search
    string and no [open] flag, issues no request, and takes exactly its
    own request out of flight. *)
Theorem completion_keeps_registry (i : nat) (r : Response) (w w' : World) :
  settle i r w = Some w' ->
  registry (app (ui w')) = registry (app (ui w)) /\
  opens (ui w') = opens (ui w) /\
  inflight w' = without i (inflight w).
Proof.
  intros H.
  destruct (settle_inv _ _ _ _ H) as [l [q [l' [f [Hin [Hlen [Hf ->]]]]]]].
  cbn [ui app opens inflight]. split; [| split].
  - exact (onResponse_registry _ _ _ Hf _).
  - reflexivity.
  - subst i. rewrite Hin, without_middle. reflexivity.
Qed.

Lemma completion_keeps_registry_witness :
  let w := session [User (TitleInput "up")] in
  exists w',
    settle 3 (Movies (mkData [] None)) w = Some w' /\
    search (app (ui w')) = "up" /\
    length (inflight w') = 3%nat.
Proof.
  intros w. eexists. split; [reflexivity |].
  destruct (completion_keeps_registry 3 (Movies (mkData [] None)) w _ eq_refl)
    as [Hr [_ Hi]].
  split.
  - apply (f_equal (fun t => fst (fst (fst (fst (fst (fst (fst t)))))))) in Hr.
    exact Hr.
  - rewrite Hi. reflexivity.
Defined.

(** ** What every session keeps *)

Lemma run_invariant (P : World -> Prop) :
  (forall x w w', P w -> step x w = Some w' -> P w') ->
  forall xs w w', P w -> run xs w = Some w' -> P w'.
Proof.
  intros Hstep xs. induction xs as [| x xs IH]; intros w w' Hw Hrun.
  - injection Hrun as <-. exact Hw.
  - cbn [run] in Hrun. destruct (step x w) as [w1 |] eqn:E; [| discriminate].
    exact (IH w1 w' (Hstep x w w1 Hw E) Hrun).
Qed.

Lemma person_requests_sound P type term p k kp km u :
  wellPaired (ThenPersons k kp km p true) = true -> 1 <= p -> P = true \/ P = false ->
  Forall soundRequest (snd (fetchPersons type term p P k kp km u)).
Proof.
  intros Hk Hp _. rewrite fetchPersons_run.
  destruct (_ <? _)%nat; constructor; [| constructor].
  split; [| exact Hp]. destruct k, kp, km; try discriminate Hk; reflexivity.
Qed.

Lemma movieRequest_sound c p a : 1 <= p -> soundRequest (movieRequest c p a).
Proof. intros H. split; [reflexivity | exact H]. Qed.

Lemma catalogRequest_sound (genre : bool) p a :
  1 <= p ->
  soundRequest
    (mkRequest (Literal (API ++ "/" ++ (if genre then "genre" else "country")
                             ++ "?page=" ++ JS.toString p)%string)
               (if genre then ThenData "genre" SetGenres p a
                else ThenData "country" SetCountries p a)).
Proof. intros H. destruct genre; (split; [reflexivity | exact H]). Qed.

Lemma effectRequests_sound c0 c u : Forall soundRequest (effectRequests c0 c u).
Proof.
  unfold effectRequests, effectsOnUpdate. rewrite !andThen_run.
  apply Forall_app; split; [| apply Forall_app; split].
  - destruct (actorSearch c0 =? actorSearch c)%string; [constructor |].
    apply person_requests_sound; [reflexivity | lia | auto].
  - destruct (directorSearch c0 =? directorSearch c)%string; [constructor |].
    apply person_requests_sound; [reflexivity | lia | auto].
  - destruct (sameSelections c0 c); [constructor |].
    constructor; [apply (movieRequest_sound c 1 false); lia | constructor].
Qed.

Lemma handler_requests_sound u e h :
  handler u e = Some h ->
  pagesFromOne (app u) ->
  Forall soundRequest (snd (h u)).
Proof.
  intros H [Hp [Hg [Hc [Ha Hd]]]].
  destruct e as [v | d | d v | d a b c | d opt | t | |]; cbn [handler] in H.
  - injection H as <-. constructor.
  - injection H as <-. constructor.
  - destruct (isOpen (opens u) d && _) eqn:G; [| discriminate].
    injection H as <-. destruct d; try constructor;
      rewrite andb_false_r in G; discriminate.
  - destruct (isOpen (opens u) d); [| discriminate].
    injection H as <-. unfold Dropdown.onScroll.
    destruct (_ && _); [| constructor].
    destruct d; cbn [Dropdown.callLoadMore dropdown Dropdown.loadMore].
    + constructor; [| constructor].
      apply (catalogRequest_sound true (genrePage (app u) + 1) true). lia.
    + constructor; [| constructor].
      apply (catalogRequest_sound false (countryPage (app u) + 1) true). lia.
    + constructor.
    + apply person_requests_sound; [reflexivity | lia | auto].
    + apply person_requests_sound; [reflexivity | lia | auto].
  - destruct (isOpen (opens u) d && _); [| discriminate].
    injection H as <-. destruct d; constructor.
  - injection H as <-. rewrite mousedown_run. constructor.
  - injection H as <-. rewrite reset_run.
    constructor; [apply movieRequest_sound; lia | constructor].
  - destruct (hasMore (app u)); [| discriminate].
    injection H as <-.
    constructor; [apply (movieRequest_sound (app u)); lia | constructor].
Qed.

Lemma years_range o : In o years -> 1990 <= id o <= 2025.
Proof.
  unfold years. rewrite <- in_rev, in_map_iff.
  intros [i [<- Hi]]. apply in_seq in Hi.
  change (Z.to_nat (2025 - 1990 + 1)) with 36%nat in Hi. cbn [id]. lia.
Qed.

Lemma filtered_In pr o :
  In o (Dropdown.filtered pr) -> In o (Dropdown.options pr).
Proof.
  unfold Dropdown.filtered. intros H. apply filter_In in H. exact (proj1 H).
Qed.

Lemma existsb_Opt_eqb opt l :
  existsb (Opt_eqb opt) l = true -> In opt l.
Proof.
  intros H. apply existsb_exists in H as [o [Ho E]].
  apply andb_true_iff in E as [E1 E2].
  apply Z.eqb_eq in E1. apply String.eqb_eq in E2.
  destruct opt, o. cbn [id name] in E1, E2. subst. exact Ho.
Qed.

Lemma handler_year u e h :
  handler u e = Some h ->
  yearOffered (selectedYear (app u)) ->
  yearOffered (selectedYear (app (fst (h u)))).
Proof.
  intros H Hy.
  destruct e as [v | d | d v | d a b c | d opt | t | |]; cbn [handler] in H.
  - injection H as <-. exact Hy.
  - injection H as <-. exact Hy.
  - destruct (isOpen (opens u) d && _) eqn:G; [| discriminate].
    injection H as <-. destruct d; try exact Hy;
      rewrite andb_false_r in G; discriminate.
  - destruct (isOpen (opens u) d); [| discriminate].
    injection H as <-. rewrite onScroll_fst. exact Hy.
  - destruct (isOpen (opens u) d && _) eqn:G; [| discriminate].
    injection H as <-. destruct d; try exact Hy.
    apply andb_true_iff in G as [_ G].
    apply existsb_Opt_eqb, filtered_In in G.
    change (1990 <= id opt <= 2025). exact (years_range opt G).
  - injection H as <-. rewrite mousedown_run. destruct t as [[] |]; exact Hy.
  - injection H as <-. exact I.
  - destruct (hasMore (app u)); [| discriminate].
    injection H as <-. exact Hy.
Qed.

Lemma onResponse_pages k r f s :
  onResponse k r = Some f ->
  1 <= pageAsked k ->
  pagesFromOne s -> pagesFromOne (f s).
Proof.
  intros H Hp [H1 [H2 [H3 [H4 H5]]]].
  destruct r as [| data | data | data], k as [e k p a | k kp km p a | p a];
    try discriminate H; injection H as <-;
    try (repeat split; assumption).
  - unfold fetchData_then.
    destruct (JS.includes e "genre"); [| destruct (JS.includes e "country")];
      destruct k; repeat split; assumption.
  - destruct k, kp, km; repeat split; assumption.
Qed.

Lemma mount_sound : sound mount.
Proof.
  split; [| split].
  - repeat split; simpl; lia.
  - repeat (constructor; [split; [reflexivity | simpl; lia] |]). constructor.
  - exact I.
Qed.

Lemma step_sound x w w' : sound w -> step x w = Some w' -> sound w'.
Proof.
  intros [Hp [Hq Hy]] H. destruct x as [e | i r]; cbn [step] in H.
  - unfold fire in H.
    destruct (handler (ui w) e) as [h |] eqn:E; [| discriminate].
    injection H as <-. unfold sound.
    rewrite dispatch_ui, dispatch_inflight. split; [| split].
    + pose proof (handler_loaded _ _ _ E) as L.
      unfold loaded in L. unfold pagesFromOne in *.
      injection L as _ -> _ _ -> _ _ -> _ _ -> _ _ -> _. exact Hp.
    + apply Forall_app; split; [exact Hq |].
      apply Forall_app; split;
        [exact (handler_requests_sound _ _ _ E Hp) | apply effectRequests_sound].
    + exact (handler_year _ _ _ E Hy).
  - destruct (settle_inv _ _ _ _ H) as [l [q [l' [f [Hin [Hlen [Hf ->]]]]]]].
    rewrite Hin in Hq. apply Forall_app in Hq as [Hl Hq].
    apply Forall_cons_iff in Hq as [[_ Hpq] Hl'].
    unfold sound. cbn [ui app inflight]. split; [| split].
    + exact (onResponse_pages _ _ _ _ Hf Hpq Hp).
    + apply Forall_app. split; assumption.
    + pose proof (onResponse_registry _ _ _ Hf (app (ui w))) as R.
      unfold registry in R. injection R as _ _ _ -> _ _ _ _. exact Hy.
Qed.

Lemma run_sound xs w : run xs mount = Some w -> sound w.
Proof. exact (run_invariant sound step_sound xs mount w mount_sound). Qed.

(** X3: on every page a session can reach, the five page numbers are at
    least 1, every request in flight asks a page from 1 on and will write
    the page number and the continuation flag of the list it fills, and a
    selected year is one of 1990..2025. *)
Theorem reachable_sound (w : World) : reachable w -> sound w.
Proof.
  intros [xs Hrun]. exact (run_sound xs w Hrun).
Qed.

Lemma reachable_sound_witness :
  let w := session [User (ButtonClick Year);
                    User (OptionClick Year (mkOpt 2001 "2001"))] in
  reachable w /\ selectedYear (app (ui w)) = Some 2001 /\ sound w.
Proof.
  intros w.
  assert (R : reachable w).
  { exists [User (ButtonClick Year); User (OptionClick Year (mkOpt 2001 "2001"))].
    reflexivity. }
  split; [exact R |]. split; [reflexivity |].
  exact (reachable_sound w R).
Defined.

(** ** Sources do not interfere *)

Lemma untouched_refl src c : untouched src c c.
Proof. destruct src as [| []]; simpl; auto. Qed.

(** The five shapes of a well-paired callback. *)
Lemma wellPaired_cases (P : Callback -> Prop) :
  (forall p a, P (ThenData "genre" SetGenres p a)) ->
  (forall p a, P (ThenData "country" SetCountries p a)) ->
  (forall p a, P (ThenPersons SetActors SetActorPage SetHasMoreActors p a)) ->
  (forall p a, P (ThenPersons SetDirectors SetDirectorPage SetHasMoreDirectors p a)) ->
  (forall p a, P (ThenMovies p a)) ->
  forall k, wellPaired k = true -> P k.
Proof.
  intros Hg Hc Ha Hd Hm k W.
  destruct k as [e k p a | k kp km p a | p a]; cbn [wellPaired] in W.
  - destruct k; try discriminate W; apply String.eqb_eq in W; subst e; auto.
  - destruct k, kp, km; try discriminate W; auto.
  - auto.
Qed.

Lemma onResponse_untouched k r f src s :
  wellPaired k = true ->
  onResponse k r = Some f ->
  src <> owner k ->
  untouched src s (f s).
Proof.
  intros W. revert r f src s.
  apply (wellPaired_cases
           (fun k => forall r f src s, onResponse k r = Some f ->
                                       src <> owner k -> untouched src s (f s)));
    [| | | | | exact W];
    intros p a r f src s H Hne;
    destruct r as [| data | data | data]; try discriminate H;
    injection H as <-; try apply untouched_refl;
    destruct src as [| []]; try (exfalso; apply Hne; reflexivity);
    cbn [untouched]; auto.
Qed.

(** X4: on every page a session can reach, the completion of a request
    leaves the list, the page number and the continuation flag of every
    other source as they were: a response for one dropdown or for the
    movie list never writes into another. *)
Theorem completion_leaves_other_sources
    (w w' : World) (i : nat) (q : Request) (r : Response) (src : Source) :
  reachable w ->
  nth_error (inflight w) i = Some q ->
  settle i r w = Some w' ->
  src <> owner (callback q) ->
  untouched src (app (ui w)) (app (ui w')).
Proof.
  intros [xs Hr] Hq Hs Hne.
  destruct (run_sound xs w Hr) as [_ [Hsound _]].
  destruct (settle_inv _ _ _ _ Hs) as [l [q' [l' [f [Hin [Hlen [Hf ->]]]]]]].
  assert (q' = q) as ->.
  { rewrite Hin, <- Hlen, nth_error_app2, Nat.sub_diag in Hq by lia.
    injection Hq as ->. reflexivity. }
  rewrite Hin in Hsound. apply Forall_app in Hsound as [_ Hsound].
  apply Forall_cons_iff in Hsound as [[W _] _].
  exact (onResponse_untouched _ _ _ _ _ W Hf Hne).
Qed.

Lemma completion_leaves_other_sources_witness :
  let w := session [Network 2%nat
                      (Movies (mkData [mkMovie 1 "A" "" "7.0" 2020 []] None))] in
  let genre := mkRequest (Literal (API ++ "/genre?page=1")%string)
                         (ThenData "genre" SetGenres 1 false) in
  reachable w /\
  nth_error (inflight w) 0 = Some genre /\
  exists w',
    settle 0 (Catalog (mkData [mkOpt 5 "Drama"] None)) w = Some w' /\
    movies (app (ui w')) = [mkMovie 1 "A" "" "7.0" 2020 []].
Proof.
  intros w genre.
  assert (R : reachable w).
  { exists [Network 2%nat (Movies (mkData [mkMovie 1 "A" "" "7.0" 2020 []] None))].
    reflexivity. }
  split; [exact R |]. split; [reflexivity |].
  eexists. split; [reflexivity |].
  assert (N : MovieList <> owner (callback genre)) by discriminate.
  destruct (completion_leaves_other_sources w _ 0 genre
              (Catalog (mkData [mkOpt 5 "Drama"] None)) MovieList
              R eq_refl eq_refl N) as [H _].
  exact H.
Defined.

(** X5: the callbacks of two requests that fill different lists commute:
    whichever of the two responses arrives first, the state after both is
    the same. *)
Theorem responses_of_different_sources_commute
    (k1 k2 : Callback) (r1 r2 : Response) (f1 f2 : State -> State) (s : State) :
  wellPaired k1 = true ->
  wellPaired k2 = true ->
  owner k1 <> owner k2 ->
  onResponse k1 r1 = Some f1 ->
  onResponse k2 r2 = Some f2 ->
  f1 (f2 s) = f2 (f1 s).
Proof.
  intros W1 W2. revert r1 r2 f1 f2 s.
  apply (wellPaired_cases
           (fun k1 => forall r1 r2 f1 f2 s, owner k1 <> owner k2 ->
              onResponse k1 r1 = Some f1 -> onResponse k2 r2 = Some f2 ->
              f1 (f2 s) = f2 (f1 s)));
    [| | | | | exact W1];
    intros p1 a1;
    apply (wellPaired_cases
             (fun k2 => forall r1 r2 f1 f2 s, _ <> owner k2 ->
                onResponse _ r1 = Some f1 -> onResponse k2 r2 = Some f2 ->
                f1 (f2 s) = f2 (f1 s)));
    try exact W2;
    intros p2 a2 r1 r2 f1 f2 s Hne H1 H2;
    try (exfalso; apply Hne; reflexivity);
    destruct r1 as [| d1 | d1 | d1]; try discriminate H1;
    destruct r2 as [| d2 | d2 | d2]; try discriminate H2;
    injection H1 as <-; injection H2 as <-; reflexivity.
Qed.

Lemma responses_of_different_sources_commute_witness :
  let kg := ThenData "genre" SetGenres 1 false in
  let km := ThenMovies 1 false in
  let rg := Catalog (mkData [mkOpt 5 "Drama"] None) in
  let rm := Movies (mkData [mkMovie 1 "A" "" "7.0" 2020 []] (Some "next")) in
  wellPaired kg = true /\ wellPaired km = true /\ owner kg <> owner km /\
  fetchData_then "genre" SetGenres 1 false (mkData [mkOpt 5 "Drama"] None)
    (fetchMovies_then 1 false
       (mkData [mkMovie 1 "A" "" "7.0" 2020 []] (Some "next")) initialState) =
  fetchMovies_then 1 false
    (mkData [mkMovie 1 "A" "" "7.0" 2020 []] (Some "next"))
    (fetchData_then "genre" SetGenres 1 false (mkData [mkOpt 5 "Drama"] None)
       initialState).
Proof.
  intros kg km rg rm.
  assert (N : owner kg <> owner km) by discriminate.
  split; [reflexivity |]. split; [reflexivity |]. split; [exact N |].
  exact (responses_of_different_sources_commute kg km rg rm _ _ initialState
           eq_refl eq_refl N eq_refl eq_refl).
Defined.

(** ** Selecting *)

Lemma registry_selectedOf c c' d :
  registry c' = registry c -> selectedOf c' d = selectedOf c d.
Proof.
  unfold registry. intros H. injection H as _ Hg Hc Hy Ha Hd _ _.
  destruct d; assumption.
Qed.

Lemma handler_selected u e h d :
  handler u e = Some h ->
  e <> ResetClick ->
  selectedOf (app (fst (h u))) d = selectedOf (app u) d \/
  exists opt, e = OptionClick d opt /\
              selectedOf (app (fst (h u))) d = Some (id opt).
Proof.
  intros H Hne.
  destruct e as [v | d' | d' v | d' a b c | d' opt | t | |]; cbn [handler] in H.
  - injection H as <-. left. destruct d; reflexivity.
  - injection H as <-. left. destruct d; reflexivity.
  - destruct (isOpen (opens u) d' && _) eqn:G; [| discriminate].
    injection H as <-. left. destruct d'; try (destruct d; reflexivity);
      rewrite andb_false_r in G; discriminate.
  - destruct (isOpen (opens u) d'); [| discriminate].
    injection H as <-. rewrite onScroll_fst. left. reflexivity.
  - destruct (isOpen (opens u) d' && _); [| discriminate].
    injection H as <-.
    destruct d, d'; first [left; reflexivity | right; eexists; split; reflexivity].
  - injection H as <-. rewrite mousedown_run. left.
    destruct t as [[] |], d; reflexivity.
  - congruence.
  - destruct (hasMore (app u)); [| discriminate].
    injection H as <-. left. reflexivity.
Qed.

(** X6: apart from the reset button, nothing clears a selection: after
    any other user event and after any completion, a facet that had a
    selected id still has one.  A single filter cannot be taken back. *)
Theorem only_reset_clears_a_selection (x : Step) (w w' : World) (d : Slot) :
  step x w = Some w' ->
  x <> User ResetClick ->
  selectedOf (app (ui w)) d <> None ->
  selectedOf (app (ui w')) d <> None.
Proof.
  intros H Hne Hsel. destruct x as [e | i r]; cbn [step] in H.
  - unfold fire in H.
    destruct (handler (ui w) e) as [h |] eqn:E; [| discriminate].
    injection H as <-. rewrite dispatch_ui.
    assert (Hne' : e <> ResetClick) by congruence.
    destruct (handler_selected _ _ _ d E Hne') as [-> | [opt [_ ->]]];
      [exact Hsel | discriminate].
  - destruct (settle_inv _ _ _ _ H) as [l [q [l' [f [_ [_ [Hf ->]]]]]]].
    cbn [ui app].
    rewrite (registry_selectedOf _ _ d (onResponse_registry _ _ _ Hf _)).
    exact Hsel.
Qed.

Lemma only_reset_clears_a_selection_witness :
  let w := session [User (ButtonClick Year);
                    User (OptionClick Year (mkOpt 2001 "2001"));
                    User (ButtonClick Year)] in
  selectedOf (app (ui w)) Year <> None /\
  exists w',
    step (User (OptionClick Year (mkOpt 1999 "1999"))) w = Some w' /\
    selectedOf (app (ui w')) Year <> None.
Proof.
  intros w.
  assert (S : selectedOf (app (ui w)) Year <> None) by discriminate.
  assert (N : User (OptionClick Year (mkOpt 1999 "1999")) <> User ResetClick)
    by discriminate.
  split; [exact S |]. eexists. split; [reflexivity |].
  exact (only_reset_clears_a_selection
           (User (OptionClick Year (mkOpt 1999 "1999"))) w _ Year eq_refl N S).
Defined.

(** X7: an entry can be clicked only in an open dropdown, and only when
    it is one of the loaded options whose name contains the search term,
    whatever the case of the letters.  The click selects the id of that
    entry, closes the dropdown and leaves the other selections alone. *)
Theorem option_click_selects_listed_option
    (d : Slot) (opt : Opt) (w w' : World) :
  fire (OptionClick d opt) w = Some w' ->
  isOpen (opens (ui w)) d = true /\
  In opt (Dropdown.options (dropdown (app (ui w)) d)) /\
  JS.includes (JS.toLowerCase (name opt))
    (JS.toLowerCase (Dropdown.searchTerm (dropdown (app (ui w)) d))) = true /\
  selectedOf (app (ui w')) d = Some (id opt) /\
  isOpen (opens (ui w')) d = false /\
  (forall d', d' <> d ->
      selectedOf (app (ui w')) d' = selectedOf (app (ui w)) d').
Proof.
  unfold fire. cbn [handler]. intros H.
  destruct (isOpen (opens (ui w)) d) eqn:Hopen; [| discriminate].
  destruct (existsb _ _) eqn:G; [| discriminate].
  cbn [andb] in H. injection H as <-.
  apply existsb_Opt_eqb in G. unfold Dropdown.filtered in G.
  apply filter_In in G as [Hin Hterm].
  split; [reflexivity |]. split; [exact Hin |]. split; [exact Hterm |].
  rewrite dispatch_ui.
  split; [destruct d; reflexivity |]. split; [destruct d; reflexivity |].
  intros d' Hd'. destruct d, d'; try reflexivity; congruence.
Qed.

Lemma option_click_selects_listed_option_witness :
  let w := session [User (ButtonClick Year)] in
  let w' := session [User (ButtonClick Year);
                     User (OptionClick Year (mkOpt 2001 "2001"))] in
  fire (OptionClick Year (mkOpt 2001 "2001")) w = Some w' /\
  selectedOf (app (ui w')) Year = Some 2001.
Proof.
  intros w w'.
  assert (F : fire (OptionClick Year (mkOpt 2001 "2001")) w = Some w')
    by reflexivity.
  split; [exact F |].
  destruct (option_click_selects_listed_option _ _ _ _ F) as [_ [_ [_ [H _]]]].
  exact H.
Defined.

(** ** What a dropdown shows *)

(** X8: the button of a dropdown shows the name of the first loaded
    option whose id is the selected one, when that name is not empty.  It
    shows the placeholder when nothing is selected, and also when the
    selected id is not among the loaded options: a selection made before
    the list was replaced is still selected but no longer named. *)
Theorem buttonLabel_names_first_match (pr : Dropdown.Props) (placeholder : string) :
  (Dropdown.selected pr = None -> buttonLabel pr placeholder = placeholder) /\
  (forall v,
      Dropdown.selected pr = Some v ->
      (forall o, In o (Dropdown.options pr) -> id o <> v) ->
      buttonLabel pr placeholder = placeholder) /\
  (forall v before o after,
      Dropdown.selected pr = Some v ->
      Dropdown.options pr = before ++ o :: after ->
      (forall o', In o' before -> id o' <> v) ->
      id o = v ->
      name o <> "" ->
      buttonLabel pr placeholder = name o).
Proof.
  unfold buttonLabel, selectedOption. split; [| split].
  - intros ->. reflexivity.
  - intros v -> Hnone.
    destruct (find _ _) as [o |] eqn:E; [| reflexivity].
    apply find_some in E as [Hin E]. apply Z.eqb_eq in E.
    exfalso. exact (Hnone o Hin E).
  - intros v before o after -> -> Hbefore Hid Hname.
    assert (E : find (fun o0 => id o0 =? v) (before ++ o :: after) = Some o).
    { induction before as [| b before IH]; cbn [find List.app].
      - apply Z.eqb_eq in Hid. rewrite Hid. reflexivity.
      - destruct (Z.eqb_spec (id b) v) as [Eb | _].
        + exfalso. exact (Hbefore b (or_introl eq_refl) Eb).
        + apply IH. intros o' Ho'. apply Hbefore. right. exact Ho'. }
    rewrite E. apply String.eqb_neq in Hname. rewrite Hname. reflexivity.
Qed.

Lemma buttonLabel_names_first_match_witness :
  let ann := mkOpt 7 "Ann" in
  let picked := session
    [User (ButtonClick Actor); User (SearchInput Actor "ann");
     Network 3%nat (Persons (mkData [mkPerson 7 "Ann"] None));
     User (OptionClick Actor ann)] in
  let replaced := session
    [User (ButtonClick Actor); User (SearchInput Actor "ann");
     Network 3%nat (Persons (mkData [mkPerson 7 "Ann"] None));
     User (OptionClick Actor ann);
     User (ButtonClick Actor); User (SearchInput Actor "bob");
     Network 4%nat (Persons (mkData [mkPerson 9 "Bob"] None))] in
  buttonLabel (dropdown (app (ui picked)) Actor) "Actor" = "Ann" /\
  selectedActor (app (ui replaced)) = Some 7 /\
  buttonLabel (dropdown (app (ui replaced)) Actor) "Actor" = "Actor".
Proof.
  intros ann picked replaced.
  destruct (buttonLabel_names_first_match (dropdown (app (ui picked)) Actor) "Actor")
    as [_ [_ Hshow]].
  destruct (buttonLabel_names_first_match (dropdown (app (ui replaced)) Actor) "Actor")
    as [_ [Hhide _]].
  split; [| split].
  - apply (Hshow 7 [] ann []); try reflexivity.
    + intros o' [].
    + discriminate.
  - reflexivity.
  - apply (Hhide 7); [reflexivity |].
    assert (E : Dropdown.options (dropdown (app (ui replaced)) Actor)
                = [mkOpt 9 "Bob"]) by (vm_compute; reflexivity).
    rewrite E. intros o [<- | []]. discriminate.
Defined.

Lemma includes_empty s : JS.includes s "" = true.
Proof. destruct s; reflexivity. Qed.

Lemma filter_all {A} (f : A -> bool) (l : list A) :
  (forall x, In x l -> f x = true) -> filter f l = l.
Proof.
  induction l as [| a l IH]; intros H; [reflexivity |].
  cbn [filter]. rewrite (H a (or_introl eq_refl)).
  f_equal. apply IH. intros x Hx. apply H. right. exact Hx.
Qed.

(** X9: with an empty search term a dropdown lists every loaded option,
    in the loaded order.  This is always so for the genre, country and
    year dropdowns, which have no search box. *)
Theorem empty_term_lists_every_option :
  (forall pr,
      Dropdown.searchTerm pr = "" ->
      Dropdown.filtered pr = Dropdown.options pr) /\
  (forall c d,
      Dropdown.isLazy (dropdown c d) = false ->
      Dropdown.filtered (dropdown c d) = Dropdown.options (dropdown c d)).
Proof.
  assert (H : forall pr, Dropdown.searchTerm pr = "" ->
                         Dropdown.filtered pr = Dropdown.options pr).
  { intros pr E. unfold Dropdown.filtered. rewrite E.
    apply filter_all. intros x _. apply includes_empty. }
  split; [exact H |].
  intros c d Hlazy. apply H. destruct d; try reflexivity; discriminate Hlazy.
Qed.

Lemma empty_term_lists_every_option_witness :
  Dropdown.isLazy (dropdown initialState Year) = false /\
  length (Dropdown.filtered (dropdown initialState Year)) = 36%nat.
Proof.
  split; [reflexivity |].
  rewrite (proj2 empty_term_lists_every_option initialState Year eq_refl).
  reflexivity.
Defined.

(** ** White space in the title search *)

Lemma trimEnd_snoc s c :
  JS.isWhiteSpace c = true ->
  JS.trimEnd (s ++ String c "")%string = JS.trimEnd s.
Proof.
  intros Hc. induction s as [| a s IH]; cbn [String.append JS.trimEnd].
  - rewrite Hc. reflexivity.
  - rewrite IH. reflexivity.
Qed.

Lemma trimStart_snoc s c :
  JS.isWhiteSpace c = true ->
  JS.trimStart (s ++ String c "")%string = (JS.trimStart s ++ String c "")%string
  \/ (JS.trimStart s = "" /\ JS.trimStart (s ++ String c "")%string = "").
Proof.
  intros Hc. induction s as [| a s IH]; cbn [String.append JS.trimStart].
  - right. rewrite Hc. split; reflexivity.
  - destruct (JS.isWhiteSpace a); [exact IH | left; reflexivity].
Qed.

Lemma trim_snoc s c :
  JS.isWhiteSpace c = true -> JS.trim (s ++ String c "")%string = JS.trim s.
Proof.
  intros Hc. unfold JS.trim.
  destruct (trimStart_snoc s c Hc) as [-> | [-> ->]];
    [apply trimEnd_snoc, Hc | reflexivity].
Qed.

Lemma trim_cons s c :
  JS.isWhiteSpace c = true -> JS.trim (String c s) = JS.trim s.
Proof. intros Hc. unfold JS.trim. cbn [JS.trimStart]. rewrite Hc. reflexivity. Qed.

Lemma string_length_append (a b : string) :
  String.length (a ++ b)%string = (String.length a + String.length b)%nat.
Proof. induction a as [| c a IH]; cbn; [reflexivity | rewrite IH; reflexivity]. Qed.

Lemma sameSelections_search c0 c :
  search c0 <> search c -> sameSelections c0 c = false.
Proof.
  intros H. unfold sameSelections.
  apply String.eqb_neq in H. rewrite H. reflexivity.
Qed.

Lemma titleInput_inflight v w :
  inflight (dispatch (update (setSearch v)) w) =
  inflight w ++
    if sameSelections (app (ui w)) (setSearch v (app (ui w))) then []
    else [movieRequest (setSearch v (app (ui w))) 1 false].
Proof.
  rewrite dispatch_inflight. cbn [update fst snd app List.app].
  rewrite effectRequests_quiet_terms by (left; reflexivity). reflexivity.
Qed.

(** X10: a white-space character typed before or after the title search
    changes the search string, so the movie list is fetched again; the
    new request is, URL and callback, the request of the title search as
    it was, because the query carries the trimmed text. *)
Theorem blank_around_title_repeats_the_request (w : World) (ch : ascii) :
  JS.isWhiteSpace ch = true ->
  let c := app (ui w) in
  (exists w',
      fire (TitleInput (search c ++ String ch "")%string) w = Some w' /\
      search (app (ui w')) = (search c ++ String ch "")%string /\
      inflight w' = inflight w ++ [movieRequest c 1 false]) /\
  (exists w',
      fire (TitleInput (String ch (search c))) w = Some w' /\
      search (app (ui w')) = String ch (search c) /\
      inflight w' = inflight w ++ [movieRequest c 1 false]).
Proof.
  intros Hc c. split.
  - eexists. split; [reflexivity |]. split; [rewrite dispatch_ui; reflexivity |].
    rewrite titleInput_inflight, sameSelections_search.
    + unfold movieRequest, fetchMovies_params.
      change (search (setSearch (search c ++ String ch "")%string (app (ui w))))
        with (search c ++ String ch "")%string.
      rewrite trim_snoc by exact Hc. reflexivity.
    + change (search c <> (search c ++ String ch "")%string).
      intros E. apply (f_equal String.length) in E.
      rewrite string_length_append in E. cbn in E. lia.
  - eexists. split; [reflexivity |]. split; [rewrite dispatch_ui; reflexivity |].
    rewrite titleInput_inflight, sameSelections_search.
    + unfold movieRequest, fetchMovies_params.
      change (search (setSearch (String ch (search c)) (app (ui w))))
        with (String ch (search c)).
      rewrite trim_cons by exact Hc. reflexivity.
    + change (search c <> String ch (search c)).
      intros E. apply (f_equal String.length) in E. cbn in E. lia.
Qed.

Lemma blank_around_title_repeats_the_request_witness :
  let w := session [User (TitleInput "up")] in
  JS.isWhiteSpace " " = true /\
  exists w',
    fire (TitleInput "up ") w = Some w' /\
    map url (issuedSince 3 w') =
      [WithParams (API ++ "/movie/?")%string [("search", "up"); ("page", "1")];
       WithParams (API ++ "/movie/?")%string [("search", "up"); ("page", "1")]].
Proof.
  intros w. split; [reflexivity |].
  destruct (blank_around_title_repeats_the_request w " " eq_refl)
    as [[w' [Hf [_ Hin]]] _].
  exists w'. split; [exact Hf |].
  unfold issuedSince. rewrite Hin. reflexivity.
Defined.

(** ** The person URL *)

(** X11: the search term is put into the person URL as it is typed,
    without encoding: the request for page [p] of a term has the same URL
    as the request for the first page of that term followed by
    [&page=p]. *)
Theorem person_url_is_not_encoded
    (type type' term : string) (p : Z) (a a' : bool)
    (k k' : ListSetter) (kp kp' : PageSetter) (km km' : MoreSetter) (u : UI) :
  (3 <= String.length term)%nat ->
  1 < p ->
  map url (snd (fetchPersons type term p a k kp km u)) =
  map url (snd (fetchPersons type'
                  (term ++ "&page=" ++ JS.toString p)%string 1 a' k' kp' km' u)) /\
  map url (snd (fetchPersons type term p a k kp km u)) =
  [Literal (API ++ "/person/?search=" ++ term ++ "&page=" ++ JS.toString p)%string].
Proof.
  intros Hlen Hp.
  rewrite fetchPersons_long by exact Hlen.
  rewrite fetchPersons_long
    by (rewrite string_length_append; lia).
  apply Z.ltb_lt in Hp. rewrite Hp. split; reflexivity.
Qed.

Lemma person_url_is_not_encoded_witness :
  (3 <= String.length "ann")%nat /\ 1 < 2 /\
  map url (snd (fetchPersons "actor" "ann" 2 true
                  SetActors SetActorPage SetHasMoreActors (ui mount))) =
  map url (snd (fetchPersons "actor" "ann&page=2" 1 false
                  SetActors SetActorPage SetHasMoreActors (ui mount))).
Proof.
  assert (Hlen : (3 <= String.length "ann")%nat) by (cbn; lia).
  assert (Hp : 1 < 2) by lia.
  split; [exact Hlen |]. split; [exact Hp |].
  exact (proj1 (person_url_is_not_encoded "actor" "actor" "ann" 2 true false
                  SetActors SetActors SetActorPage SetActorPage
                  SetHasMoreActors SetHasMoreActors (ui mount) Hlen Hp)).
Defined.

(** ** Sequences of selection writes *)

Lemma sameSelections_true c c' :
  sameSelections c c' = true <->
  search c = search c' /\ forall d, selectedOf c d = selectedOf c' d.
Proof.
  unfold sameSelections. rewrite !andb_true_iff, String.eqb_eq, !optZ_eqb_eq.
  split.
  - intros [[[[[Hs Hg] Hc] Hy] Ha] Hd]. split; [exact Hs |].
    intros d. destruct d; assumption.
  - intros [Hs H]. repeat split;
      [exact Hs | exact (H Genre) | exact (H Country) | exact (H Year)
       | exact (H Actor) | exact (H Director)].
Qed.

Lemma sameSelections_trans c1 c2 c3 :
  sameSelections c1 c2 = true -> sameSelections c2 c3 = true ->
  sameSelections c1 c3 = true.
Proof.
  rewrite !sameSelections_true. intros [Hs H] [Hs' H']. split.
  - congruence.
  - intros d. rewrite H. apply H'.
Qed.

Lemma sameSelections_request c c' p a :
  sameSelections c c' = true -> movieRequest c p a = movieRequest c' p a.
Proof.
  rewrite sameSelections_true. intros [Hs H].
  unfold movieRequest, fetchMovies_params.
  rewrite Hs.
  pose proof (H Genre) as Hg. pose proof (H Country) as Hc.
  pose proof (H Year) as Hy. pose proof (H Actor) as Ha.
  pose proof (H Director) as Hd. cbn [selectedOf] in Hg, Hc, Hy, Ha, Hd.
  rewrite Hg, Hc, Hy, Ha, Hd. reflexivity.
Qed.

(** X12: a sequence of selection writes issues at most one request per
    write, all of them for page 1 of the movie list and none appending.
    When any was issued, the last one carries the query of the selections
    as they are at the end; when none was issued, the selections are what
    they were. *)
Theorem writes_end_with_the_current_query (xs : list Write) : forall w,
  exists reqs,
    inflight (writes xs w) = inflight w ++ reqs /\
    (length reqs <= length xs)%nat /\
    Forall (fun q => callback q = ThenMovies 1 false) reqs /\
    (reqs = [] ->
     sameSelections (app (ui w)) (app (ui (writes xs w))) = true) /\
    (reqs <> [] ->
     exists earlier,
       reqs = earlier ++ [movieRequest (app (ui (writes xs w))) 1 false]).
Proof.
  induction xs as [| x xs IH]; intros w.
  - exists []. cbn [writes fold_left]. rewrite app_nil_r.
    repeat split; auto using sameSelections_refl. congruence.
  - cbn [writes fold_left]. fold (writes xs (write x w)).
    destruct (IH (write x w)) as [reqs [Hin [Hlen [Hall [Hnil Hlast]]]]].
    pose proof (write_changed_inflight x w) as Hw.
    destruct (sameSelections (app (ui w)) (app (ui (write x w)))) eqn:Hsame.
    + exists reqs. rewrite Hin, Hw, app_nil_r.
      split; [reflexivity |]. split; [cbn [length]; lia |].
      split; [exact Hall |]. split; [| exact Hlast].
      intros E. exact (sameSelections_trans _ _ _ Hsame (Hnil E)).
    + exists (movieRequest (app (ui (write x w))) 1 false :: reqs).
      rewrite Hin, Hw, <- app_assoc.
      split; [reflexivity |]. split; [cbn [length]; lia |].
      split; [constructor; [reflexivity | exact Hall] |].
      split; [discriminate |]. intros _.
      destruct reqs as [| q reqs].
      * exists []. cbn [List.app]. f_equal.
        apply sameSelections_request, Hnil. reflexivity.
      * destruct Hlast as [earlier E]; [discriminate |].
        exists (movieRequest (app (ui (write x w))) 1 false :: earlier).
        rewrite E. reflexivity.
Qed.

Lemma writes_end_with_the_current_query_witness :
  let xs := [Select Genre (Some 5); Select Country (Some 12)] in
  exists earlier,
    issuedSince 3 (writes xs mount) =
      earlier ++ [mkRequest
                    (WithParams (API ++ "/movie/?")%string
                       [("genres", "5"); ("countries", "12"); ("page", "1")])
                    (ThenMovies 1 false)].
Proof.
  intros xs.
  destruct (writes_end_with_the_current_query xs mount)
    as [reqs [Hin [_ [_ [_ Hlast]]]]].
  assert (Hreqs : reqs = issuedSince 3 (writes xs mount)).
  { unfold issuedSince. rewrite Hin. reflexivity. }
  destruct Hlast as [earlier E].
  - rewrite Hreqs. discriminate.
  - exists earlier. rewrite <- Hreqs, E. reflexivity.
Defined.

(** ** Reset, in general *)

Lemma reset_registry c u :
  registry (app (fst (reset c u))) = ("", None, None, None, None, None, "", "").
Proof. reflexivity. Qed.

(** X13: from any page, the reset button empties the title search, the
    five selections and both person searches, so that the query composed
    afterwards holds [page] alone.  It always issues the request of the
    query as it was before the click; when the title search or a selection
    was set, the unfiltered request follows it, and otherwise the first
    request is the only one. *)
Theorem reset_fetches_old_query_then_unfiltered (w : World) :
  let c := app (ui w) in
  exists w',
    fire ResetClick w = Some w' /\
    registry (app (ui w')) = ("", None, None, None, None, None, "", "") /\
    (forall p, fetchMovies_params (app (ui w')) p = [("page", JS.toString p)]) /\
    ((search c = "" /\ forall d, selectedOf c d = None) ->
     inflight w' = inflight w ++ [movieRequest c 1 false]) /\
    (~ (search c = "" /\ forall d, selectedOf c d = None) ->
     inflight w' =
       inflight w ++
         [movieRequest c 1 false;
          mkRequest (WithParams (API ++ "/movie/?")%string [("page", "1")])
                    (ThenMovies 1 false)]).
Proof.
  intros c. eexists. split; [reflexivity |].
  rewrite dispatch_ui, reset_inflight.
  split; [apply reset_registry |]. split; [reflexivity |].
  assert (E : sameSelections c (app (fst (reset c (ui w)))) = true <->
              search c = "" /\ forall d, selectedOf c d = None).
  { rewrite sameSelections_true. split; intros [Hs H]; (split; [exact Hs |]);
      intros d; specialize (H d); destruct d; exact H. }
  fold c. split.
  - intros H. apply E in H. rewrite H. reflexivity.
  - intros H. destruct (sameSelections c _) eqn:S.
    + exfalso. apply H, E. reflexivity.
    + reflexivity.
Qed.

Lemma reset_fetches_old_query_then_unfiltered_witness :
  let w := session [User (TitleInput "up")] in
  ~ (search (app (ui w)) = "" /\ forall d, selectedOf (app (ui w)) d = None) /\
  exists w',
    fire ResetClick w = Some w' /\
    map url (issuedSince 4 w') =
      [WithParams (API ++ "/movie/?")%string [("search", "up"); ("page", "1")];
       WithParams (API ++ "/movie/?")%string [("page", "1")]].
Proof.
  intros w.
  assert (N : ~ (search (app (ui w)) = ""
                 /\ forall d, selectedOf (app (ui w)) d = None)).
  { intros [E _]. discriminate E. }
  split; [exact N |].
  destruct (reset_fetches_old_query_then_unfiltered w)
    as [w' [Hf [_ [_ [_ Hin]]]]].
  exists w'. split; [exact Hf |].
  unfold issuedSince. rewrite (Hin N). reflexivity.
Defined.

(** ** Scrolling and pressing *)

(** X14: scrolling the list of a dropdown never changes what is rendered
    and issues at most one request; farther than five units from the end
    of the list it issues none. *)
Theorem scroll_only_fetches_near_the_end
    (d : Slot) (scrollTop scrollHeight clientHeight : Z) (w w' : World) :
  fire (Scroll d scrollTop scrollHeight clientHeight) w = Some w' ->
  ui w' = ui w /\
  exists fresh,
    inflight w' = inflight w ++ fresh /\
    (length fresh <= 1)%nat /\
    (clientHeight + 5 < scrollHeight - scrollTop -> fresh = []).
Proof.
  intros H.
  assert (Hopen : isOpen (opens (ui w)) d = true).
  { unfold fire in H. cbn [handler] in H.
    destruct (isOpen (opens (ui w)) d); [reflexivity | discriminate]. }
  rewrite (scroll_run d scrollTop scrollHeight clientHeight w Hopen) in H.
  injection H as <-. cbn [ui inflight]. split; [reflexivity |].
  eexists. split; [reflexivity |]. split.
  - destruct (_ && _); [| cbn; lia].
    destruct d; cbn [scrollRequests]; try (cbn; lia);
      destruct (_ <? _)%nat; cbn; lia.
  - intros Hfar. apply Z.leb_gt in Hfar. rewrite Hfar. reflexivity.
Qed.

Lemma scroll_only_fetches_near_the_end_witness :
  let w := session [User (ButtonClick Genre)] in
  exists w',
    fire (Scroll Genre 0 400 240) w = Some w' /\ inflight w' = inflight w.
Proof.
  intros w. eexists. split; [reflexivity |].
  destruct (scroll_only_fetches_near_the_end Genre 0 400 240 w _ eq_refl)
    as [_ [fresh [Hin [_ Hfar]]]].
  rewrite Hin, Hfar by lia. apply app_nil_r.
Defined.

Lemma mousedown_inflight target w :
  inflight (dispatch (mousedown (app (ui w)) target) w) = inflight w.
Proof.
  rewrite dispatch_inflight, mousedown_run. cbn [fst snd app List.app].
  rewrite effectRequests_quiet_terms.
  - replace (sameSelections _ _) with true; [apply app_nil_r |].
    symmetry. destruct target as [[] |]; exact (sameSelections_refl (app (ui w))).
  - destruct target as [[] |]; first [left; reflexivity | right; simpl; lia].
  - destruct target as [[] |]; first [left; reflexivity | right; simpl; lia].
Qed.

Lemma toggle_inflight d b w :
  inflight (dispatch (Dropdown.toggle d b) w) = inflight w.
Proof.
  rewrite dispatch_inflight. cbn [Dropdown.toggle setOpen fst snd app List.app].
  rewrite effectRequests_quiet_terms by (left; reflexivity).
  rewrite sameSelections_refl. apply app_nil_r.
Qed.

(** X15: a press on the button of a dropdown reaches the document
    listener of every dropdown before the click toggles this one.  After
    the press and the click every other dropdown is closed, this one has
    changed between open and closed, and no request was issued. *)
Theorem pressing_a_button_closes_the_others (d : Slot) (w : World) :
  exists w1 w2,
    fire (MouseDown (Some d)) w = Some w1 /\
    fire (ButtonClick d) w1 = Some w2 /\
    isOpen (opens (ui w2)) d = negb (isOpen (opens (ui w)) d) /\
    (forall d', d' <> d -> isOpen (opens (ui w2)) d' = false) /\
    inflight w2 = inflight w.
Proof.
  eexists. eexists. split; [reflexivity |]. split; [reflexivity |].
  rewrite toggle_inflight, mousedown_inflight.
  rewrite !dispatch_ui, mousedown_run.
  split; [| split; [| reflexivity]].
  - destruct d; reflexivity.
  - intros d' Hd'. destruct d, d'; try reflexivity; congruence.
Qed.

Lemma pressing_a_button_closes_the_others_witness :
  let w := session [User (ButtonClick Genre); User (ButtonClick Actor)] in
  isOpen (opens (ui w)) Genre = true /\
  exists w1 w2,
    fire (MouseDown (Some Actor)) w = Some w1 /\
    fire (ButtonClick Actor) w1 = Some w2 /\
    isOpen (opens (ui w2)) Genre = false.
Proof.
  intros w. split; [reflexivity |].
  destruct (pressing_a_button_closes_the_others Actor w)
    as [w1 [w2 [H1 [H2 [_ [Hothers _]]]]]].
  exists w1, w2. split; [exact H1 |]. split; [exact H2 |].
  apply Hothers. discriminate.
Defined.

(** ** Fetches that fail *)

(** C6 refuted as stated: when the first movie fetch cannot complete, the
    view after the failure is the view before it and nothing is shown.
    When the service answers the movie fetch or the genre fetch with an
    error status and a JSON body without [results], the callback runs all
    the same, the next render throws and the page is gone: the prior state
    is not kept. *)
Lemma failed_fetch_is_not_handled :
  (exists w',
      arrive 2 FetchRejects mount = Some (Shown w') /\
      ~ surfaced (ui mount) (ui w')) /\
  arrive 2 (Parsed 500 (NoResults None)) mount = Some Unmounted /\
  arrive 0 (Parsed 404 (NoResults None)) mount = Some Unmounted.
Proof.
  split; [| split; reflexivity].
  eexists. split; [reflexivity |].
  unfold surfaced. intros H. apply H. reflexivity.
Qed.

(** C6 as amended: when the promise chain of a fetch rejects, because the
    request cannot complete or because the body is not JSON, no callback
    runs: the request leaves the list of those in flight, and the state of
    every source, with everything else the page is rendered from, is
    exactly what it was.  Nothing is recorded and nothing is shown. *)
Theorem rejected_chain_changes_nothing (w : World) (i : nat) (reply : Reply) :
  (i < length (inflight w))%nat ->
  reply = FetchRejects \/ (exists status, reply = JsonRejects status) ->
  exists w',
    arrive i reply w = Some (Shown w') /\
    ui w' = ui w /\
    ~ surfaced (ui w) (ui w') /\
    inflight w' = without i (inflight w).
Proof.
  intros Hi Hreply.
  destruct (settle_Rejected w i Hi) as [w' [Hs [Hu Hin]]].
  exists w'. split.
  - destruct Hreply as [-> | [status ->]]; cbn [arrive]; rewrite Hs; reflexivity.
  - split; [exact Hu |]. split; [| exact Hin].
    unfold surfaced. rewrite Hu. intros H. apply H. reflexivity.
Qed.

Lemma rejected_chain_changes_nothing_witness :
  let w := session [Network 2%nat
                      (Movies (mkData [mkMovie 1 "A" "" "7.0" 2020 []] (Some "next")));
                    User LoadMoreClick] in
  (2 < length (inflight w))%nat /\
  exists w',
    arrive 2 (JsonRejects 502) w = Some (Shown w') /\
    movies (app (ui w')) = [mkMovie 1 "A" "" "7.0" 2020 []] /\
    page (app (ui w')) = 1 /\
    length (inflight w') = 2%nat.
Proof.
  intros w.
  assert (Hi : (2 < length (inflight w))%nat) by (cbn; lia).
  split; [exact Hi |].
  destruct (rejected_chain_changes_nothing w 2 (JsonRejects 502) Hi
              (or_intror (ex_intro _ 502 eq_refl)))
    as [w' [Ha [Hu [_ Hin]]]].
  exists w'. split; [exact Ha |]. rewrite Hu, Hin.
  repeat split.
Defined.

(** A parsed body without [results] unmounts the page, for every request
    in flight and every status. *)
Lemma body_without_results_unmounts (w : World) (i : nat) status next :
  (i < length (inflight w))%nat ->
  arrive i (Parsed status (NoResults next)) w = Some Unmounted.
Proof.
  intros Hi. cbn [arrive].
  destruct (nth_error (inflight w) i) as [q |] eqn:E.
  2:{ apply nth_error_None in E. lia. }
  unfold withoutResults. destruct (updaterWithoutResults (callback q)); reflexivity.
Qed.

(** ** A changed selection and the page number *)




